(** * MCP Qdrant semantic search server: dispatcher, embedding client, store client

    A shallow embedding of the TypeScript sources

    - [src/embeddings.ts]  (class [EmbeddingService]),
    - [src/qdrant.ts]      (class [QdrantService]),
    - the server entry point, index.ts (the [tools] catalogue and the
      [CallToolRequestSchema] handler),

    followed by the properties of the tool dispatch and payload-shaping
    contract.

    Modelling conventions.

    - JavaScript values that flow through the handlers (tool arguments,
      payloads, response bodies) are the inductive type [value]; objects used
      as string-keyed maps are [gmap string value].
    - Every interaction with the outside world (the OpenAI client, the Qdrant
      client, [console.error], [uuidv4()], [new Date().toISOString()]) is a
      [request] node of a program tree [prog]; an environment answers the
      requests.  Awaited client calls are answered by [exn + T]: a rejected
      promise is the [inl] case and is re-raised by [await].
    - [try { ... } catch (error) { ... }] is [try_catch].
    - A JavaScript string is a sequence of UTF-16 code units.  It is carried
      here by the bytes of its UTF-8 encoding, an unpaired surrogate by the
      three bytes of its own code point; [length], [substring] and the
      spread of a string count and cut code units, not bytes. *)

From Stdlib Require Import QArith Qround Ascii.
From stdpp Require Import gmap strings list fin_maps pretty.

Close Scope Q_scope.
Set Warnings "-register-all".

(* ===================================================================== *)
(** ** JavaScript values                                                  *)
(* ===================================================================== *)

Module Js.

(** A JSON-representable value, plus [undefined] (a missing property or an
    omitted argument).  Numbers are kept as rationals: the handlers only
    pass them on, compare none of them, and never compute with them. *)
Inductive value : Type :=
  | VUndefined
  | VNull
  | VBool (b : bool)
  | VNum (q : Q)
  | VStr (s : string)
  | VArr (l : list value)
  | VObj (o : gmap string value).

(** What a [throw] carries: an [Error] instance (with its [message]) or any
    other value. *)
Inductive exn : Type :=
  | ErrorObject (message : string)
  | Thrown (v : value).

(** Object literal [{k1: v1, ..., kn: vn}] with distinct keys. *)
Definition obj (l : list (string * value)) : gmap string value :=
  list_to_map l.

(** Property read [o.k] on an object: [undefined] when the key is absent. *)
Definition get (o : gmap string value) (k : string) : value :=
  default VUndefined (o !! k).

(** Destructuring default [{ k = d }] and default parameter [(k = d)]: the
    default is taken exactly when the value is [undefined]. *)
Definition with_default (v d : value) : value :=
  match v with
  | VUndefined => d
  | _ => v
  end.

(** Optional chaining [v?.k] for the keys the handlers read ([content],
    [timestamp]): [undefined] on [null]/[undefined], the property on an
    object, and [undefined] on the other values, none of which has such a
    property. *)
Definition opt_chain (v : value) (k : string) : value :=
  match v with
  | VObj o => get o k
  | _ => VUndefined
  end.

(** ToBoolean, the test behind [!v] and [if (v)]. *)
Definition to_boolean (v : value) : bool :=
  match v with
  | VUndefined | VNull => false
  | VBool b => b
  | VNum q => negb (Qnum q =? 0)%Z
  | VStr s => negb (String.eqb s EmptyString)
  | VArr _ | VObj _ => true
  end.

(** *** Strings as sequences of UTF-16 code units *)

(** What the first byte of an encoded character announces: a character of
    one byte (also a byte that starts no sequence), or a sequence of two,
    three or four bytes. *)
Inductive lead := Single | Lead2 | Lead3 | Lead4.

Definition byte_class (c : ascii) : lead :=
  let n := N_of_ascii c in
  if (n <? 192)%N then Single
  else if (n <? 224)%N then Lead2
  else if (n <? 240)%N then Lead3
  else if (n <? 248)%N then Lead4
  else Single.

(** The six payload bits of a continuation byte. *)
Definition low6 (c : ascii) : N := (N_of_ascii c mod 64)%N.

(** The code unit of a two-byte and of a three-byte sequence, and the code
    point of a four-byte sequence. *)
Definition unit2 (c c1 : ascii) : N :=
  ((N_of_ascii c mod 32) * 64 + low6 c1)%N.
Definition unit3 (c c1 c2 : ascii) : N :=
  ((N_of_ascii c mod 16) * 4096 + low6 c1 * 64 + low6 c2)%N.
Definition scalar4 (c c1 c2 c3 : ascii) : N :=
  ((N_of_ascii c mod 8) * 262144 + low6 c1 * 4096 + low6 c2 * 64 + low6 c3)%N.

(** The two code units of a code point above U+FFFF. *)
Definition high_surrogate (cp : N) : N := (55296 + (cp - 65536) / 1024)%N.
Definition low_surrogate (cp : N) : N := (56320 + (cp - 65536) mod 1024)%N.

(** The three bytes of a code unit on its own (used for a surrogate that is
    separated from its partner). *)
Definition encode3 (u : N) : string :=
  String (ascii_of_N (224 + u / 4096))
    (String (ascii_of_N (128 + (u / 64) mod 64))
       (String (ascii_of_N (128 + u mod 64)) EmptyString)).

(** The code units of a string. *)
Fixpoint utf16_units (s : string) : list N :=
  match s with
  | EmptyString => []
  | String c s1 =>
      match byte_class c, s1 with
      | Lead2, String c1 s2 => unit2 c c1 :: utf16_units s2
      | Lead3, String c1 (String c2 s3) => unit3 c c1 c2 :: utf16_units s3
      | Lead4, String c1 (String c2 (String c3 s4)) =>
          high_surrogate (scalar4 c c1 c2 c3)
            :: low_surrogate (scalar4 c c1 c2 c3) :: utf16_units s4
      | _, _ => N_of_ascii c :: utf16_units s1
      end
  end.

(** [s.length] *)
Definition utf16_length (s : string) : nat := length (utf16_units s).

(** [s.substring(0, n)]: the first [n] code units.  A cut between the two
    units of one character keeps its high surrogate alone. *)
Fixpoint substring0 (n : nat) (s : string) {struct s} : string :=
  match n, s with
  | 0, _ => EmptyString
  | _, EmptyString => EmptyString
  | S n', String c s1 =>
      match byte_class c, s1 with
      | Lead2, String c1 s2 => String c (String c1 (substring0 n' s2))
      | Lead3, String c1 (String c2 s3) =>
          String c (String c1 (String c2 (substring0 n' s3)))
      | Lead4, String c1 (String c2 (String c3 s4)) =>
          match n' with
          | 0 => encode3 (high_surrogate (scalar4 c c1 c2 c3))
          | S n'' =>
              String c (String c1 (String c2 (String c3 (substring0 n'' s4))))
          end
      | _, _ => String c (substring0 n' s1)
      end
  end.

(** The one-unit strings [s[0]], [s[1]], ... *)
Fixpoint unit_strings (s : string) : list string :=
  match s with
  | EmptyString => []
  | String c s1 =>
      match byte_class c, s1 with
      | Lead2, String c1 s2 =>
          String c (String c1 EmptyString) :: unit_strings s2
      | Lead3, String c1 (String c2 s3) =>
          String c (String c1 (String c2 EmptyString)) :: unit_strings s3
      | Lead4, String c1 (String c2 (String c3 s4)) =>
          encode3 (high_surrogate (scalar4 c c1 c2 c3))
            :: encode3 (low_surrogate (scalar4 c c1 c2 c3)) :: unit_strings s4
      | _, _ => String c EmptyString :: unit_strings s1
      end
  end.

(** Own enumerable properties, as copied by the spread [{...v}]: the keys of
    an object, the indices of an array or of the code units of a string,
    nothing for the other values. *)
Definition own_props (v : value) : gmap string value :=
  match v with
  | VObj o => o
  | VArr l => list_to_map (imap (fun i x => (pretty i, x)) l)
  | VStr s => list_to_map (imap (fun i u => (pretty i, VStr u)) (unit_strings s))
  | _ => ∅
  end.

(** [{ ...target_literal, ...src }]: the properties of [src] are written
    after those of the literal, so on a common key [src] wins. *)
Definition spread (literal : gmap string value) (src : value)
  : gmap string value :=
  own_props src ∪ literal.

Section ToString.

(** Number-to-string conversion of the engine, not fixed by this model. *)
Variable Number_toString : Q -> string.

(** [String(v)] and the conversion inside a template literal. *)
Fixpoint ToString (v : value) : string :=
  match v with
  | VUndefined => "undefined"
  | VNull => "null"
  | VBool true => "true"
  | VBool false => "false"
  | VNum q => Number_toString q
  | VStr s => s
  | VArr l =>
      String.concat ","
        (map (fun x => match x with
                       | VUndefined | VNull => EmptyString
                       | _ => ToString x
                       end) l)
  | VObj _ => "[object Object]"
  end.

(** [error instanceof Error ? error.message : String(error)] *)
Definition errorMessage (error : exn) : string :=
  match error with
  | ErrorObject message => message
  | Thrown v => ToString v
  end.

End ToString.

(** The serialised text [JSON.stringify(v, null, space)], kept symbolic:
    the handlers build it and never inspect it. *)
Inductive json_text : Type :=
  | JSON_stringify (v : value) (space : nat).

End Js.
Export Js.

(* ===================================================================== *)
(** ** Client library types                                               *)
(* ===================================================================== *)

(** [type QdrantPoint] of qdrant.ts; an absent optional field is
    [VUndefined]. *)
Record QdrantPoint := {
  pt_id : value;
  pt_payload : value;
  pt_vector : value;
  pt_score : value;
  pt_version : value;
}.

(** One item of [response.data] of the embeddings endpoint. *)
Record Embedding := { embedding : value }.
Record CreateEmbeddingResponse := { data : list Embedding }.

Record CollectionDescription := { cd_name : string }.
Record CollectionsResponse := { collections : list CollectionDescription }.

Record CollectionInfo := {
  points_count : value;
  indexed_vectors_count : value;
  segments_count : value;
  status : value;
}.

Record ScrollResponse := {
  points : list QdrantPoint;
  next_page_offset : value;
}.

(** A point handed to [upsert]. *)
Record PointStruct := {
  ps_id : string;
  ps_vector : value;
  ps_payload : gmap string value;
}.

(** The two ways qdrant.ts selects points to delete: [{ points: [...] }] and
    [{ filter: ... }]. *)
Inductive PointsSelector :=
  | ByPoints (ids : list value)
  | ByFilter (filter : value).

(* ===================================================================== *)
(** ** Programs over the outside world                                    *)
(* ===================================================================== *)

Module Eff.

Inductive request : Type :=
  (* openai.embeddings.create({ model, input, dimensions }) *)
  | EmbeddingsCreate (model : string) (input : value) (dimensions : Q)
  (* client.getCollections() *)
  | GetCollections
  (* client.createCollection(name, { vectors: { size, distance } }) *)
  | CreateCollection (name : string) (size : value) (distance : string)
  (* client.upsert(name, { wait, points }) *)
  | Upsert (name : string) (wait : bool) (pts : list PointStruct)
  (* client.search(name, { vector, limit, score_threshold, with_payload, filter }) *)
  | Search (name : string) (vector limit score_threshold : value)
           (with_payload : bool) (filter : value)
  (* client.delete(name, { wait, points }) / client.delete(name, { wait, filter }) *)
  | Delete (name : string) (wait : bool) (sel : PointsSelector)
  (* client.retrieve(name, { ids, with_payload, with_vector }) *)
  | Retrieve (name : string) (ids : list value) (with_payload with_vector : bool)
  (* client.getCollection(name) *)
  | GetCollection (name : string)
  (* client.scroll(name, { limit, offset, with_payload, with_vector }) *)
  | Scroll (name : string) (limit offset : value) (with_payload with_vector : bool)
  (* console.error(msg) / console.error(msg, error) *)
  | ConsoleError (msg : string) (detail : option exn)
  (* uuidv4() *)
  | UuidV4
  (* new Date().toISOString() *)
  | DateNowISO.

(** What the world gives back.  The awaited client calls may reject. *)
Definition answer (c : request) : Type :=
  match c with
  | EmbeddingsCreate _ _ _ => exn + CreateEmbeddingResponse
  | GetCollections => exn + CollectionsResponse
  | CreateCollection _ _ _ => exn + bool
  | Upsert _ _ _ => exn + unit
  | Search _ _ _ _ _ _ => exn + list QdrantPoint
  | Delete _ _ _ => exn + unit
  | Retrieve _ _ _ _ => exn + list QdrantPoint
  | GetCollection _ => exn + CollectionInfo
  | Scroll _ _ _ _ _ => exn + ScrollResponse
  | ConsoleError _ _ => unit
  | UuidV4 => string
  | DateNowISO => string
  end.

Inductive prog (A : Type) : Type :=
  | Ret (a : A)
  | Throw (e : exn)
  | Call (c : request) (k : answer c -> prog A).
Arguments Ret {A} a.
Arguments Throw {A} e.
Arguments Call {A} c k.

Fixpoint bind {A B} (p : prog A) (f : A -> prog B) : prog B :=
  match p with
  | Ret a => f a
  | Throw e => Throw e
  | Call c k => Call c (fun a => bind (k a) f)
  end.

#[export] Instance prog_ret : MRet prog := fun A a => Ret a.
#[export] Instance prog_bind : MBind prog := fun A B f p => bind p f.

(** [try { p } catch (error) { handler error }] *)
Fixpoint try_catch {A} (p : prog A) (handler : exn -> prog A) : prog A :=
  match p with
  | Ret a => Ret a
  | Throw e => handler e
  | Call c k => Call c (fun a => try_catch (k a) handler)
  end.

(** [await promise]: the value of a fulfilled promise, the rejection
    re-raised. *)
Definition settle {T} (a : exn + T) : prog T :=
  match a with
  | inl e => Throw e
  | inr x => Ret x
  end.

Definition console_error (msg : string) (detail : option exn) : prog unit :=
  Call (ConsoleError msg detail) (fun _ => Ret tt).

Definition uuidv4 : prog string := Call UuidV4 (fun s => Ret s).
Definition Date_now_toISOString : prog string :=
  Call DateNowISO (fun s => Ret s).

(** [throw new TypeError(msg)] *)
Definition TypeError {A} (msg : string) : prog A :=
  Throw (ErrorObject msg).

(** *** Running a program against an environment *)

Record event := Ev { ev_request : request; ev_answer : answer ev_request }.

Definition env (W : Type) : Type := forall c : request, W -> answer c * W.

Record run (W A : Type) := Run {
  outcome : exn + A;
  final : W;
  trace : list event;
}.
Arguments Run {W A} outcome final trace.
Arguments outcome {W A} r.
Arguments final {W A} r.
Arguments trace {W A} r.

Fixpoint exec {W A} (h : env W) (p : prog A) (w : W) : run W A :=
  match p with
  | Ret a => Run (inr a) w []
  | Throw e => Run (inl e) w []
  | Call c k =>
      let aw := h c w in
      let r := exec h (k aw.1) aw.2 in
      Run (outcome r) (final r) (Ev c aw.1 :: trace r)
  end.

(** The rejection an event carries, if it is a rejected client call. *)
Definition rejection (ev : event) : option exn :=
  match ev with
  | Ev (EmbeddingsCreate _ _ _) (inl e)
  | Ev GetCollections (inl e)
  | Ev (CreateCollection _ _ _) (inl e)
  | Ev (Upsert _ _ _) (inl e)
  | Ev (Search _ _ _ _ _ _) (inl e)
  | Ev (Delete _ _ _) (inl e)
  | Ev (Retrieve _ _ _ _) (inl e)
  | Ev (GetCollection _) (inl e)
  | Ev (Scroll _ _ _ _ _) (inl e) => Some e
  | _ => None
  end.

(** Is the request one to the embedding provider or to the vector store? *)
Definition is_client_request (c : request) : bool :=
  match c with
  | ConsoleError _ _ | UuidV4 | DateNowISO => false
  | _ => true
  end.

End Eff.
Export Eff.

(** The double-quote character, for the log messages that quote the
    collection name. *)
Definition dquote : string := String (Ascii.ascii_of_nat 34) EmptyString.

(* ===================================================================== *)
(** ** src/embeddings.ts                                                  *)
(* ===================================================================== *)

Module EmbeddingService.

(** The private fields [model] and [dimensions] set by the constructor (the
    [openai] handle is the environment). *)
Record t := { model : string; dimensions : Q }.

(** [async generateEmbedding(text)] *)
Definition generateEmbedding (this : t) (text : value) : prog value :=
  try_catch
    (response ← Call (EmbeddingsCreate (model this) text (dimensions this)) settle;
     (* response.data[0].embedding *)
     match data response with
     | [] => TypeError "Cannot read properties of undefined (reading 'embedding')"
     | d :: _ => Ret (embedding d)
     end)
    (fun error =>
       console_error "Error generating embedding:" (Some error);;
       Throw error).

(** [async generateBatchEmbeddings(texts)] *)
Definition generateBatchEmbeddings (this : t) (texts : list string)
    : prog (list value) :=
  try_catch
    (response ← Call (EmbeddingsCreate (model this) (VArr (VStr <$> texts))
                        (dimensions this)) settle;
     (* response.data.map((item) => item.embedding) *)
     Ret (map embedding (data response)))
    (fun error =>
       console_error "Error generating batch embeddings:" (Some error);;
       Throw error).

Definition getDimensions (this : t) : Q := dimensions this.
Definition getModel (this : t) : string := model this.

End EmbeddingService.

(* ===================================================================== *)
(** ** src/qdrant.ts                                                      *)
(* ===================================================================== *)

Module QdrantService.

(** The private field [collectionName] (the [client] handle is the
    environment). *)
Record t := { collectionName : string }.

(** [async createCollection(vectorSize = 1536)] *)
Definition createCollection (this : t) (vectorSize : value) : prog unit :=
  let vectorSize := with_default vectorSize (VNum (inject_Z 1536)) in
  try_catch
    (cols ← Call GetCollections settle;
     let exists_ :=
       existsb (fun col => String.eqb (cd_name col) (collectionName this))
               (collections cols) in
     if negb exists_ then
       Call (CreateCollection (collectionName this) vectorSize "Cosine") settle;;
       console_error
         ("Collection " +:+ dquote +:+ collectionName this +:+ dquote
            +:+ " created successfully") None
     else
       console_error
         ("Collection " +:+ dquote +:+ collectionName this +:+ dquote
            +:+ " already exists") None)
    (fun error =>
       console_error "Error creating collection:" (Some error);;
       Throw error).

(** [async storeMemory(id, vector, payload)] *)
Definition storeMemory (this : t) (id : string) (vector : value)
    (payload : gmap string value) : prog unit :=
  try_catch
    (Call (Upsert (collectionName this) true
             [{| ps_id := id; ps_vector := vector; ps_payload := payload |}])
          settle)
    (fun error =>
       console_error "Error storing memory:" (Some error);;
       Throw error).

(** [async searchSimilar(queryVector, limit = 5, scoreThreshold = 0.7, filter?)] *)
Definition searchSimilar (this : t) (queryVector limit scoreThreshold filter : value)
    : prog (list QdrantPoint) :=
  let limit := with_default limit (VNum (inject_Z 5)) in
  let scoreThreshold := with_default scoreThreshold (VNum (7 # 10)) in
  try_catch
    (results ← Call (Search (collectionName this) queryVector limit
                       scoreThreshold true filter) settle;
     Ret results)
    (fun error =>
       console_error "Error during search:" (Some error);;
       Throw error).

(** [async deleteMemory(id)] *)
Definition deleteMemory (this : t) (id : value) : prog unit :=
  try_catch
    (Call (Delete (collectionName this) true (ByPoints [id])) settle)
    (fun error =>
       console_error "Error deleting memory:" (Some error);;
       Throw error).

(** [async getMemory(id)]: [results.length > 0 ? results[0] : null] *)
Definition getMemory (this : t) (id : value) : prog (option QdrantPoint) :=
  try_catch
    (results ← Call (Retrieve (collectionName this) [id] true false) settle;
     Ret (match results with
          | r :: _ => Some r
          | [] => None
          end))
    (fun error =>
       console_error "Error retrieving memory:" (Some error);;
       Throw error).

(** [async getCount()]: [info.points_count || 0] *)
Definition getCount (this : t) : prog value :=
  try_catch
    (info ← Call (GetCollection (collectionName this)) settle;
     Ret (if to_boolean (points_count info) then points_count info
          else VNum (inject_Z 0)))
    (fun error =>
       console_error "Error counting points:" (Some error);;
       Throw error).

(** [async listMemories(limit = 10, offset?)] *)
Definition listMemories (this : t) (limit offset : value)
    : prog (list QdrantPoint) :=
  let limit := with_default limit (VNum (inject_Z 10)) in
  try_catch
    (results ← Call (Scroll (collectionName this) limit offset true false) settle;
     Ret (points results))
    (fun error =>
       console_error "Error listing memories:" (Some error);;
       Throw error).

(** [async clearAllMemories()]: delete with the empty filter [{}]. *)
Definition clearAllMemories (this : t) : prog unit :=
  try_catch
    (Call (Delete (collectionName this) true (ByFilter (VObj ∅))) settle)
    (fun error =>
       console_error "Error clearing all memories:" (Some error);;
       Throw error).

(** [async getStats()] *)
Definition getStats (this : t) : prog (gmap string value) :=
  try_catch
    (info ← Call (GetCollection (collectionName this)) settle;
     Ret (obj [("name", VStr (collectionName this));
               ("points_count", points_count info);
               ("indexed_vectors_count", indexed_vectors_count info);
               ("segments_count", segments_count info);
               ("status", status info)]))
    (fun error =>
       console_error "Error retrieving stats:" (Some error);;
       Throw error).

End QdrantService.

(* ===================================================================== *)
(** ** index.ts: the [CallToolRequestSchema] handler                      *)
(* ===================================================================== *)

Module Server.

(** The result envelope: [{ content: [{ type: 'text', text }], isError? }]. *)
Record TextContent := { type : string; text : json_text }.
Record CallToolResult := { content : list TextContent; isError : option bool }.

(** [{ content: [{ type: 'text', text: JSON.stringify(body, null, 2) }] }] *)
Definition text_result (body : gmap string value) : CallToolResult :=
  {| content := [{| type := "text"; text := JSON_stringify (VObj body) 2 |}];
     isError := None |}.

(** The envelope built by the [catch] block: the same, with [isError: true]. *)
Definition error_result (errorMessage : string) : CallToolResult :=
  {| content :=
       [{| type := "text";
           text := JSON_stringify
                     (VObj (obj [("success", VBool false);
                                 ("error", VStr errorMessage)])) 2 |}];
     isError := Some true |}.

(** [const { k, ... } = args]: [args] is the optional [arguments] record of
    the request; destructuring [undefined] raises a [TypeError]. *)
Definition destructure {A} (args : option (gmap string value)) (first : string)
    (k : gmap string value -> prog A) : prog A :=
  match args with
  | None =>
      TypeError ("Cannot destructure property '" +:+ first
                   +:+ "' of 'args' as it is undefined.")
  | Some o => k o
  end.

(** The same when the first property destructured has a default value. *)
Definition destructure_defaulted {A} (args : option (gmap string value))
    (first : string) (k : gmap string value -> prog A) : prog A :=
  match args with
  | None =>
      TypeError ("Cannot read properties of undefined (reading '" +:+ first
                   +:+ "')")
  | Some o => k o
  end.

(** [content.substring(0, 100) + (content.length > 100 ? '...' : '')]; only
    a string has a [substring] method. *)
Definition content_preview (content : value) : prog value :=
  match content with
  | VStr s =>
      Ret (VStr (substring0 100 s
                   +:+ (if 100 <? utf16_length s then "..." else EmptyString)))
  | VUndefined =>
      TypeError "Cannot read properties of undefined (reading 'substring')"
  | VNull =>
      TypeError "Cannot read properties of null (reading 'substring')"
  | _ => TypeError "content.substring is not a function"
  end.

(** [xs.length] as a JavaScript number. *)
Definition length_number {A} (xs : list A) : value :=
  VNum (inject_Z (Z.of_nat (length xs))).

(** The item built for each search hit. *)
Definition format_result (result : QdrantPoint) : value :=
  VObj (obj [("id", pt_id result);
             ("score", pt_score result);
             ("content", opt_chain (pt_payload result) "content");
             ("metadata", pt_payload result)]).

(** The item built for each listed memory. *)
Definition format_memory (memory : QdrantPoint) : value :=
  VObj (obj [("id", pt_id memory);
             ("content", opt_chain (pt_payload memory) "content");
             ("timestamp", opt_chain (pt_payload memory) "timestamp");
             ("metadata", pt_payload memory)]).

Section Handler.

Variable Number_toString : Q -> string.
(** The two service objects created at start-up. *)
Variable embeddingService : EmbeddingService.t.
Variable qdrantService : QdrantService.t.

Definition case_store_memory (args : option (gmap string value))
    : prog CallToolResult :=
  destructure args "content" (fun o =>
    let content := get o "content" in
    let metadata := with_default (get o "metadata") (VObj ∅) in
    (* Generate content embedding *)
    vector ← EmbeddingService.generateEmbedding embeddingService content;
    (* Generate unique ID *)
    id ← uuidv4;
    (* Prepare payload with timestamp *)
    now ← Date_now_toISOString;
    let payload :=
      spread (obj [("content", content); ("timestamp", VStr now)]) metadata in
    (* Store in Qdrant *)
    QdrantService.storeMemory qdrantService id vector payload;;
    preview ← content_preview content;
    Ret (text_result
           (obj [("success", VBool true);
                 ("message", VStr "Memory stored successfully");
                 ("id", VStr id);
                 ("content", preview);
                 ("metadata", metadata)]))).

Definition case_search_memory (args : option (gmap string value))
    : prog CallToolResult :=
  destructure args "query" (fun o =>
    let query := get o "query" in
    let limit := with_default (get o "limit") (VNum (inject_Z 5)) in
    let threshold := with_default (get o "threshold") (VNum (7 # 10)) in
    let filter := get o "filter" in
    (* Generate query embedding *)
    queryVector ← EmbeddingService.generateEmbedding embeddingService query;
    (* Search in Qdrant *)
    results ← QdrantService.searchSimilar qdrantService queryVector limit
                threshold filter;
    (* Format results *)
    let formattedResults := map format_result results in
    Ret (text_result
           (obj [("success", VBool true);
                 ("query", query);
                 ("results_count", length_number formattedResults);
                 ("results", VArr formattedResults)]))).

Definition case_delete_memory (args : option (gmap string value))
    : prog CallToolResult :=
  destructure args "id" (fun o =>
    let id := get o "id" in
    QdrantService.deleteMemory qdrantService id;;
    Ret (text_result
           (obj [("success", VBool true);
                 ("message",
                  VStr ("Memory " +:+ ToString Number_toString id
                          +:+ " deleted successfully"))]))).

Definition case_get_memory (args : option (gmap string value))
    : prog CallToolResult :=
  destructure args "id" (fun o =>
    let id := get o "id" in
    memory ← QdrantService.getMemory qdrantService id;
    match memory with
    | None =>
        Ret (text_result
               (obj [("success", VBool false);
                     ("message",
                      VStr ("Memory " +:+ ToString Number_toString id
                              +:+ " not found"))]))
    | Some memory =>
        Ret (text_result
               (obj [("success", VBool true);
                     ("memory",
                      VObj (obj [("id", pt_id memory);
                                 ("payload", pt_payload memory)]))]))
    end).

Definition case_list_memories (args : option (gmap string value))
    : prog CallToolResult :=
  destructure_defaulted args "limit" (fun o =>
    let limit := with_default (get o "limit") (VNum (inject_Z 10)) in
    let offset := get o "offset" in
    memories ← QdrantService.listMemories qdrantService limit offset;
    let formattedMemories := map format_memory memories in
    Ret (text_result
           (obj [("success", VBool true);
                 ("count", length_number formattedMemories);
                 ("memories", VArr formattedMemories)]))).

Definition case_get_stats : prog CallToolResult :=
  stats ← QdrantService.getStats qdrantService;
  Ret (text_result
         (obj [("success", VBool true);
               ("stats", VObj stats);
               ("embedding_model",
                VStr (EmbeddingService.getModel embeddingService));
               ("embedding_dimensions",
                VNum (EmbeddingService.getDimensions embeddingService))])).

Definition case_clear_all_memories (args : option (gmap string value))
    : prog CallToolResult :=
  destructure args "confirm" (fun o =>
    let confirm := get o "confirm" in
    if negb (to_boolean confirm) then
      Ret (text_result
             (obj [("success", VBool false);
                   ("message",
                    VStr "You must confirm with confirm=true to delete all memories")]))
    else
      QdrantService.clearAllMemories qdrantService;;
      Ret (text_result
             (obj [("success", VBool true);
                   ("message", VStr "All memories have been deleted")]))).

(** The [switch (name)] inside the [try]. *)
Definition switch (name : string) (args : option (gmap string value))
    : prog CallToolResult :=
  if String.eqb name "store_memory" then case_store_memory args
  else if String.eqb name "search_memory" then case_search_memory args
  else if String.eqb name "delete_memory" then case_delete_memory args
  else if String.eqb name "get_memory" then case_get_memory args
  else if String.eqb name "list_memories" then case_list_memories args
  else if String.eqb name "get_stats" then case_get_stats
  else if String.eqb name "clear_all_memories" then case_clear_all_memories args
  else Throw (ErrorObject ("Unknown tool: " +:+ name)).

(** The handler registered for [CallToolRequestSchema], applied to
    [request.params.name] and [request.params.arguments]. *)
Definition callTool (name : string) (args : option (gmap string value))
    : prog CallToolResult :=
  try_catch (switch name args)
    (fun error => Ret (error_result (errorMessage Number_toString error))).

End Handler.

(** The [tools] array: each tool's [name] and the [required] list of its
    [inputSchema] (empty when the schema has none). *)
Record Tool := { name : string; required : list string }.

Definition tools : list Tool :=
  [{| name := "store_memory"; required := ["content"] |};
   {| name := "search_memory"; required := ["query"] |};
   {| name := "delete_memory"; required := ["id"] |};
   {| name := "get_memory"; required := ["id"] |};
   {| name := "list_memories"; required := [] |};
   {| name := "get_stats"; required := [] |};
   {| name := "clear_all_memories"; required := ["confirm"] |}].

Definition tool_names : list string := map name tools.

(** The fields the catalogue declares required for the tool called [n]. *)
Definition required_fields (n : string) : list string :=
  match find (fun t => String.eqb (name t) n) tools with
  | Some t => required t
  | None => []
  end.

(** The handler registered for [ListToolsRequestSchema]: [{ tools }]. *)
Definition listTools : list Tool := tools.

(** The [default] entries of the [properties] of each [inputSchema]. *)
Definition schema_defaults : list (string * list (string * value)) :=
  [("search_memory",
    [("limit", VNum (inject_Z 5)); ("threshold", VNum (7 # 10))]);
   ("list_memories", [("limit", VNum (inject_Z 10))])].

(** The default the catalogue advertises for a property of a tool. *)
Definition schema_default (tool prop : string) : option value :=
  match find (fun e => String.eqb e.1 tool) schema_defaults with
  | Some e => snd <$> find (fun d => String.eqb d.1 prop) e.2
  | None => None
  end.

End Server.

(* ===================================================================== *)
(** ** A reference environment                                            *)
(* ===================================================================== *)

Module Reference.

Record StoredPoint := { sp_vector : value; sp_payload : gmap string value }.

Record Collection := {
  vectors_size : value;
  vectors_distance : string;
  stored : gmap string StoredPoint;
}.

(** Modelled from the spec: the two external services behind the client
    libraries (sections 4.1 and 4.2), which are not part of the repository.
    The store keeps named collections of records keyed by id; [upsert] is
    insert-or-replace, [retrieve] an exact lookup by id that answers with an
    empty list when nothing is found, deleting an absent id is not an error,
    and the empty filter selects every record.  Embedding, similarity ranking
    and the filter language are the services' own and stay oracles. *)
Record World := {
  store : gmap string Collection;
  embedder : string -> value -> Q -> exn + CreateEmbeddingResponse;
  ranker : Collection -> value -> value -> value -> value -> exn + list QdrantPoint;
  filter_oracle : value -> gmap string value -> bool;
  fresh_ids : list string;
  clock : string;
}.

Definition with_store (w : World) (s : gmap string Collection) : World :=
  {| store := s; embedder := embedder w; ranker := ranker w;
     filter_oracle := filter_oracle w; fresh_ids := fresh_ids w;
     clock := clock w |}.

Definition with_stored (col : Collection) (m : gmap string StoredPoint)
    : Collection :=
  {| vectors_size := vectors_size col; vectors_distance := vectors_distance col;
     stored := m |}.

Definition not_found : exn := ErrorObject "Not Found".
Definition bad_request : exn := ErrorObject "Bad Request".

(** A stored record as the client returns it with
    [with_payload: true, with_vector: false]. *)
Definition to_point (entry : string * StoredPoint) : QdrantPoint :=
  {| pt_id := VStr entry.1; pt_payload := VObj (sp_payload entry.2);
     pt_vector := VUndefined; pt_score := VUndefined;
     pt_version := VUndefined |}.

Definition is_string (v : value) : bool :=
  match v with VStr _ => true | _ => false end.

Definition lookup_point (m : gmap string StoredPoint) (id : value)
    : option QdrantPoint :=
  match id with
  | VStr s => (fun sp => to_point (s, sp)) <$> m !! s
  | _ => None
  end.

Definition delete_point (m : gmap string StoredPoint) (id : value)
    : gmap string StoredPoint :=
  match id with
  | VStr s => delete s m
  | _ => m
  end.

Definition is_empty_filter (f : value) : bool :=
  match f with
  | VObj o => match map_to_list o with [] => true | _ => false end
  | _ => false
  end.

Definition selected (w : World) (f : value) (sp : StoredPoint) : bool :=
  is_empty_filter f || filter_oracle w f (sp_payload sp).

Fixpoint drop_until {A} (f : A -> bool) (l : list A) : list A :=
  match l with
  | [] => []
  | x :: l' => if f x then l else drop_until f l'
  end.

(** The page of [scroll]: records in key order from [offset] on, at most
    [limit] of them. *)
Definition page (m : gmap string StoredPoint) (limit offset : value)
    : exn + ScrollResponse :=
  let all := map_to_list m in
  let from :=
    match offset with
    | VStr s => Some (drop_until (fun e => String.eqb e.1 s) all)
    | VUndefined | VNull => Some all
    | _ => None
    end in
  match from, limit with
  | Some l, VNum q =>
      let n := Z.to_nat (Qfloor q) in
      inr {| points := to_point <$> take n l;
             next_page_offset :=
               match drop n l with
               | e :: _ => VStr e.1
               | [] => VNull
               end |}
  | _, _ => inl bad_request
  end.

(** The identifier [uuidv4()] hands out next, and the state after it did. *)
Definition next_id (w : World) : string :=
  match fresh_ids w with
  | id :: _ => id
  | [] => EmptyString
  end.

Definition after_id (w : World) : World :=
  {| store := store w; embedder := embedder w; ranker := ranker w;
     filter_oracle := filter_oracle w; fresh_ids := tail (fresh_ids w);
     clock := clock w |}.

Definition on_collection {T} (w : World) (name : string)
    (k : Collection -> (exn + T) * World) : (exn + T) * World :=
  match store w !! name with
  | Some col => k col
  | None => (inl not_found, w)
  end.

Definition respond (c : request) (w : World) : answer c * World :=
  match c as c0 return answer c0 * World with
  | EmbeddingsCreate model input dimensions =>
      (embedder w model input dimensions, w)
  | GetCollections =>
      (inr {| collections :=
                (fun e => {| cd_name := e.1 |}) <$> map_to_list (store w) |}, w)
  | CreateCollection name sz dist =>
      match store w !! name with
      | Some _ => (inl (ErrorObject "Conflict"), w)
      | None =>
          (inr true,
           with_store w
             (<[name := {| vectors_size := sz; vectors_distance := dist;
                           stored := ∅ |}]>
                (store w)))
      end
  | Upsert name _ pts =>
      on_collection w name (fun col =>
        let m :=
          foldl (fun m p =>
                   <[ps_id p := {| sp_vector := ps_vector p;
                                   sp_payload := ps_payload p |}]> m)
                (stored col) pts in
        (inr tt, with_store w (<[name := with_stored col m]> (store w))))
  | Search name vector limit score_threshold _ filter =>
      on_collection w name (fun col =>
        (ranker w col vector limit score_threshold filter, w))
  | Delete name _ (ByPoints ids) =>
      on_collection w name (fun col =>
        if forallb is_string ids then
          (inr tt,
           with_store w
             (<[name := with_stored col (foldl delete_point (stored col) ids)]>
                (store w)))
        else (inl bad_request, w))
  | Delete name _ (ByFilter f) =>
      on_collection w name (fun col =>
        (inr tt,
         with_store w
           (<[name := with_stored col
                        (filter (fun e => selected w f e.2 = false) (stored col))]>
              (store w))))
  | Retrieve name ids _ _ =>
      on_collection w name (fun col =>
        if forallb is_string ids then
          (inr (omap (lookup_point (stored col)) ids), w)
        else (inl bad_request, w))
  | GetCollection name =>
      on_collection w name (fun col =>
        (inr {| points_count := VNum (inject_Z (Z.of_nat (size (stored col))));
                indexed_vectors_count := VNum (inject_Z 0);
                segments_count := VNum (inject_Z 1);
                status := VStr "green" |}, w))
  | Scroll name limit offset _ _ =>
      on_collection w name (fun col => (page (stored col) limit offset, w))
  | ConsoleError _ _ => (tt, w)
  | UuidV4 => (next_id w, after_id w)
  | DateNowISO => (clock w, w)
  end.

End Reference.

(* ===================================================================== *)
(** ** Observations on results and traces                                 *)
(* ===================================================================== *)

(** The [success] field of the JSON body carried by a result, when the
    result is a single text item whose body is an object with a boolean
    [success]. *)
Definition success_field (r : Server.CallToolResult) : option bool :=
  match Server.content r with
  | [item] =>
      match Server.type item, Server.text item with
      | "text", JSON_stringify (VObj body) _ =>
          match body !! "success" with
          | Some (VBool b) => Some b
          | _ => None
          end
      | _, _ => None
      end
  | _ => None
  end.

(** The JSON body carried by a result. *)
Definition body_of (r : Server.CallToolResult) : gmap string value :=
  match Server.content r with
  | {| Server.text := JSON_stringify (VObj body) _ |} :: _ => body
  | _ => ∅
  end.

Definition requests (t : list event) : list request := ev_request <$> t.

(** [deleteAll] of the store: a delete request selecting by filter. *)
Definition is_delete_all (c : request) : bool :=
  match c with
  | Delete _ _ (ByFilter _) => true
  | _ => false
  end.

Definition is_create_collection (c : request) : bool :=
  match c with
  | CreateCollection _ _ _ => true
  | _ => false
  end.

Definition is_search (c : request) : bool :=
  match c with
  | Search _ _ _ _ _ _ => true
  | _ => false
  end.

(** [res] is the envelope made of a single text item, whose text is the
    serialisation of the object [body] with indentation 2, and of the
    [isError] field [tag] ([None] when the field is absent). *)
Definition envelope (res : Server.CallToolResult) (tag : option bool)
    (body : gmap string value) : Prop :=
  Server.content res
  = [{| Server.type := "text"; Server.text := JSON_stringify (VObj body) 2 |}]
  /\ Server.isError res = tag.

(** The run returns, without raising, the envelope with [tag] and [body]. *)
Definition answers {W} (r : run W Server.CallToolResult) (tag : option bool)
    (body : gmap string value) : Prop :=
  exists res, outcome r = inr res /\ envelope res tag body.

(** The text a caught exception is reported with: the message of an Error,
    the string conversion of any other thrown value. *)
Definition message_of (Number_toString : Q -> string) (e : exn) : string :=
  match e with
  | ErrorObject message => message
  | Thrown v => ToString Number_toString v
  end.

(** The body of the error-tagged response for the exception [e]. *)
Definition error_body (Number_toString : Q -> string) (e : exn)
    : gmap string value :=
  obj [("success", VBool false);
       ("error", VStr (message_of Number_toString e))].

(** The argument [k] as the caller supplied it, [d] when it is omitted. *)
Definition argument_or (o : gmap string value) (k : string) (d : value)
    : value :=
  match o !! k with
  | Some VUndefined | None => d
  | Some v => v
  end.

(** An ordinary (not error-tagged) envelope with a boolean [success]. *)
Definition ordinary (res : Server.CallToolResult) : Prop :=
  Server.isError res = None /\ is_Some (success_field res).

(** The rejection carried by an event, if any, is the raised exception. *)
Definition raises {A} (res : exn + A) (ev : event) : Prop :=
  match rejection ev with
  | Some e => res = inl e
  | None => True
  end.

(** The rejection carried by an event, if any, is the exception whose message
    the result reports, as built by the [catch] block of the dispatcher. *)
Definition reports (Number_toString : Q -> string)
    (res : exn + Server.CallToolResult) (ev : event) : Prop :=
  match rejection ev with
  | Some e => res = inr (Server.error_result (errorMessage Number_toString e))
  | None => True
  end.

(** The rejection carried by an event, if any, is reported by the run: the
    run returns the error-tagged envelope with success false and that
    exception's message. *)
Definition reports_message {W} (Number_toString : Q -> string)
    (r : run W Server.CallToolResult) (ev : event) : Prop :=
  match rejection ev with
  | Some e => answers r (Some true) (error_body Number_toString e)
  | None => True
  end.

(** A request that, if it is a search, has exactly these parameters. *)
Definition search_with (name : string) (limit threshold filter : value)
    (c : request) : Prop :=
  match c with
  | Search n _ l t wp f =>
      n = name /\ l = limit /\ t = threshold /\ wp = true /\ f = filter
  | _ => True
  end.

(** An item of a search or list response agrees with the record it was
    built from: its [metadata] is the record's whole payload, and its
    [content] is the [content] entry of that same payload. *)
Definition item_of (p : QdrantPoint) (item : value) : Prop :=
  opt_chain item "id" = pt_id p
  /\ opt_chain item "metadata" = pt_payload p
  /\ opt_chain item "content" = opt_chain (opt_chain item "metadata") "content".

(** A rejected client call ends the run: it is followed by exactly the
    service's [console.error] of that exception and by nothing else. *)
Fixpoint stops_at_rejection (t : list event) : Prop :=
  match t with
  | [] => True
  | ev :: rest =>
      match rejection ev with
      | Some e => exists msg, rest = [Ev (ConsoleError msg (Some e)) tt]
      | None => stops_at_rejection rest
      end
  end.

(** A run in which a rejected client call is logged, ends the run, and is
    the exception the run raises. *)
Definition fails_loudly {W A} (r : run W A) : Prop :=
  stops_at_rejection (trace r) /\ Forall (raises (outcome r)) (trace r).

(** The number of requests a run made to the two clients. *)
Definition client_requests {W A} (r : run W A) : nat :=
  length (List.filter is_client_request (requests (trace r))).

(** A search or scroll request whose limit and threshold are the defaults
    the catalogue advertises for the tool. *)
Definition uses_schema_defaults (c : request) : Prop :=
  match c with
  | Search _ _ limit threshold _ _ =>
      Server.schema_default "search_memory" "limit" = Some limit
      /\ Server.schema_default "search_memory" "threshold" = Some threshold
  | Scroll _ limit _ _ _ =>
      Server.schema_default "list_memories" "limit" = Some limit
  | _ => True
  end.

(** The [stats] object of a get_stats result. *)
Definition body_of_stats (r : exn + Server.CallToolResult) : gmap string value :=
  match r with
  | inr res =>
      match body_of res !! "stats" with
      | Some (VObj stats) => stats
      | _ => ∅
      end
  | inl _ => ∅
  end.

(** Requests that change the contents of the store. *)
Definition is_mutation (c : request) : bool :=
  match c with
  | CreateCollection _ _ _ | Upsert _ _ _ | Delete _ _ _ => true
  | _ => false
  end.

Definition is_embedding_request (c : request) : bool :=
  match c with
  | EmbeddingsCreate _ _ _ => true
  | _ => false
  end.

Definition is_collection_admin (c : request) : bool :=
  match c with
  | GetCollections | CreateCollection _ _ _ => true
  | _ => false
  end.

(** An upsert of a single point into [name], waited for, whose payload is
    made of the properties of [metadata] and, where [metadata] has no
    property of that name, of [content] under the key content and of some
    time stamp string under the key timestamp.  [content] is the argument as
    supplied: [VUndefined] when it was missing. *)
Definition well_formed_upsert (name : string) (content metadata : value)
    (c : request) : Prop :=
  match c with
  | Upsert n wait [p] =>
      n = name /\ wait = true
      /\ dom (ps_payload p)
         = dom (own_props metadata) ∪ {[ "content"; "timestamp" ]}
      /\ (forall k v, own_props metadata !! k = Some v ->
                      ps_payload p !! k = Some v)
      /\ (own_props metadata !! "content" = None ->
          ps_payload p !! "content" = Some content)
      /\ (own_props metadata !! "timestamp" = None ->
          exists now, ps_payload p !! "timestamp" = Some (VStr now))
  | Upsert _ _ _ => False
  | _ => True
  end.

(** The first 100 characters of [s], followed by an ellipsis when [s] is
    longer than that. *)
Definition truncated (s : string) : string :=
  if utf16_length s <=? 100 then s else substring0 100 s +:+ "...".

(* ===================================================================== *)
(** ** A concrete deployment, for examples                                *)
(* ===================================================================== *)

Module Demo.

(** A stand-in for the engine's number formatting. *)
Definition Number_toString (q : Q) : string :=
  pretty (Qnum q) +:+ "/" +:+ pretty (Z.pos (Qden q)).

(** The defaults of index.ts. *)
Definition embeddingService : EmbeddingService.t :=
  {| EmbeddingService.model := "text-embedding-3-large";
     EmbeddingService.dimensions := inject_Z 1536 |}.

Definition qdrantService : QdrantService.t :=
  {| QdrantService.collectionName := "semantic_memory" |}.

Definition callTool := Server.callTool Number_toString embeddingService qdrantService.

(** An embedding provider that accepts strings only. *)
Definition embedder (model : string) (input : value) (dimensions : Q)
    : exn + CreateEmbeddingResponse :=
  match input with
  | VStr s =>
      inr {| data := [{| embedding := VArr [VNum (inject_Z (Z.of_nat (String.length s)))] |}] |}
  | _ => inl (ErrorObject "400 Invalid input")
  end.

(** A ranker for which every stored record matches with score 1. *)
Definition ranker (col : Reference.Collection) (vector limit threshold filter : value)
    : exn + list QdrantPoint :=
  inr ((fun e =>
          {| pt_id := VStr e.1;
             pt_payload := VObj (Reference.sp_payload e.2);
             pt_vector := VUndefined;
             pt_score := VNum (inject_Z 1);
             pt_version := VUndefined |}) <$> map_to_list (Reference.stored col)).

Definition world (cols : gmap string Reference.Collection) : Reference.World :=
  {| Reference.store := cols;
     Reference.embedder := embedder;
     Reference.ranker := ranker;
     Reference.filter_oracle := fun _ _ => false;
     Reference.fresh_ids :=
       ["6f1c7a52-0b3e-4c1d-9a77-2f4f5f0c0001";
        "6f1c7a52-0b3e-4c1d-9a77-2f4f5f0c0002"];
     Reference.clock := "2024-05-01T12:00:00.000Z" |}.

Definition empty_collection : Reference.Collection :=
  {| Reference.vectors_size := VNum (inject_Z 1536);
     Reference.vectors_distance := "Cosine";
     Reference.stored := ∅ |}.

(** The state right after start-up: the collection exists and is empty. *)
Definition fresh : Reference.World :=
  world {[ "semantic_memory" := empty_collection ]}.

(** A state with no collection at all. *)
Definition blank : Reference.World := world ∅.

(** A state with one stored memory. *)
Definition one_memory : Reference.World :=
  world {[ "semantic_memory" :=
             Reference.with_stored empty_collection
               {[ "m-1" :=
                    {| Reference.sp_vector := VArr [];
                       Reference.sp_payload :=
                         obj [("content", VStr "Our API uses JWT");
                              ("timestamp", VStr "2024-04-30T08:00:00.000Z");
                              ("tags", VArr [VStr "auth"])] |} ]} ]}.

Definition run_tool (name : string) (args : option (gmap string value))
    (w : Reference.World) : run Reference.World Server.CallToolResult :=
  exec Reference.respond (callTool name args) w.

Definition first_id : string := "6f1c7a52-0b3e-4c1d-9a77-2f4f5f0c0001".

(** The store scenario of the spec. *)
Definition jwt_args : gmap string value :=
  obj [("content", VStr "Our API uses JWT");
       ("metadata", VObj (obj [("tags", VArr [VStr "auth"])]))].

(** A store request whose metadata has a key named [content]. *)
Definition override_args : gmap string value :=
  obj [("content", VStr "original");
       ("metadata", VObj (obj [("content", VStr "override")]))].

(** A clear request confirmed with the number 1 instead of [true]. *)
Definition confirm_1_args : gmap string value :=
  obj [("confirm", VNum (inject_Z 1))].

Definition id_args (id : string) : gmap string value :=
  obj [("id", VStr id)].

Definition query_args : gmap string value :=
  obj [("query", VStr "how are users authenticated")].

End Demo.

(** Further scenarios. *)
Module Cases.

(** An embedding provider that answers any input. *)
Definition lenient_embedder (model : string) (input : value) (dimensions : Q)
    : exn + CreateEmbeddingResponse :=
  inr {| data := [{| embedding := VArr [VNum (inject_Z 0)] |}] |}.

(** The freshly started deployment, with the lenient provider. *)
Definition lenient : Reference.World :=
  {| Reference.store := Reference.store Demo.fresh;
     Reference.embedder := lenient_embedder;
     Reference.ranker := Demo.ranker;
     Reference.filter_oracle := fun _ _ => false;
     Reference.fresh_ids := Reference.fresh_ids Demo.fresh;
     Reference.clock := Reference.clock Demo.fresh |}.

(** The collection of [Demo.one_memory]. *)
Definition jwt_collection : Reference.Collection :=
  Reference.with_stored Demo.empty_collection
    {[ "m-1" :=
         {| Reference.sp_vector := VArr [];
            Reference.sp_payload :=
              obj [("content", VStr "Our API uses JWT");
                   ("timestamp", VStr "2024-04-30T08:00:00.000Z");
                   ("tags", VArr [VStr "auth"])] |} ]}.


(** A hundred and one of them. *)
Definition long_accented : string :=
  String.concat EmptyString (replicate 101 "é").


(** A search that supplies its limit, threshold and filter. *)
Definition tuned_query_args : gmap string value :=
  obj [("query", VStr "how are users authenticated");
       ("limit", VNum (inject_Z 3));
       ("threshold", VNum (9 # 10));
       ("filter", VObj (obj [("category", VStr "code")]))].

(** A store request whose content is a number. *)
Definition number_args : gmap string value :=
  obj [("content", VNum (inject_Z 42))].

(** A store request without content whose metadata is a string of two
    letters, the first of them accented. *)
Definition string_metadata_args : gmap string value :=
  obj [("metadata", VStr "éa")].

End Cases.


(* ===================================================================== *)
(** ** Properties                                                         *)
(* ===================================================================== *)

Arguments obj : simpl never.

(** Case analysis on the answer of the environment to the next request. *)
Ltac next_answer h :=
  match goal with
  | |- context [h ?c ?w] =>
      first [ destruct (h c w) as [[?e | ?r] ?w] eqn:?E
            | destruct (h c w) as [?a ?w] eqn:?E ];
      simpl in *
  end.

Ltac run_handler :=
  unfold Server.callTool, Server.switch; simpl.

Lemma with_default_idem (v d : value) :
  with_default (with_default v d) d = with_default v d.
Proof. destruct v; simpl; try reflexivity. destruct d; reflexivity. Qed.




Lemma shorter_ind (P : string -> Prop) :
  (forall s, (forall t, String.length t < String.length s -> P t) -> P s) ->
  forall s, P s.
Proof. intros H. apply (induction_ltof1 _ String.length). exact H. Qed.

Lemma substring0_all (s : string) :
  forall n, utf16_length s <= n -> substring0 n s = s.
Proof.
  unfold utf16_length. induction s as [s IH] using shorter_ind.
  intros n Hn. destruct s as [| c s1]; [destruct n; reflexivity |].
  destruct n as [| n'];
    [cbn [utf16_units] in Hn;
     destruct (byte_class c), s1 as [| ? [| ? [| ? ?]]]; simpl in Hn; lia |].
  cbn [substring0 utf16_units] in *.
  destruct (byte_class c), s1 as [| c1 [| c2 [| c3 s4]]]; cbn [length] in Hn;
    try (destruct n' as [| n'']; [lia |]).
  all: repeat f_equal.
  all: apply IH; [simpl; lia | lia].
Qed.




Lemma append_empty_r (s : string) : s +:+ EmptyString = s.
Proof.
  induction s as [|c s IH]; [reflexivity |].
  change (String c (s +:+ EmptyString) = String c s). f_equal. exact IH.
Qed.

(** The expression of index.ts computes [truncated]. *)
Lemma preview_truncated (s : string) :
  substring0 100 s +:+ (if 100 <? utf16_length s then "..." else EmptyString)
  = truncated s.
Proof.
  unfold truncated.
  destruct (Nat.ltb_spec 100 (utf16_length s)) as [Hlt | Hle].
  - destruct (Nat.leb_spec (utf16_length s) 100); [lia | reflexivity].
  - destruct (Nat.leb_spec (utf16_length s) 100); [| lia].
    rewrite append_empty_r. apply substring0_all. assumption.
Qed.

Lemma not_a_tool (name t : string) :
  name ∉ Server.tool_names -> t ∈ Server.tool_names -> String.eqb name t = false.
Proof.
  intros Hn Ht. apply String.eqb_neq. intros ->. contradiction.
Qed.

(** A result that is not error-tagged is not the one of the [catch] block. *)
Lemma error_result_tagged (msg : string) (res : Server.CallToolResult) :
  inr (Server.error_result msg) = (inr res : exn + Server.CallToolResult) ->
  Server.isError res = None -> False.
Proof. intros [= <-]. discriminate. Qed.

Ltac absurd_error :=
  match goal with
  | H : inr (Server.error_result _) = inr ?res, H' : Server.isError ?res = None |- _ =>
      destruct (error_result_tagged _ _ H H')
  end.

(** The two builders of index.ts produce the envelopes they are meant to. *)
Lemma text_result_envelope (body : gmap string value) :
  envelope (Server.text_result body) None body.
Proof. split; reflexivity. Qed.

Lemma error_result_envelope (Number_toString : Q -> string) (e : exn) :
  envelope (Server.error_result (errorMessage Number_toString e)) (Some true)
           (error_body Number_toString e).
Proof. destruct e; split; reflexivity. Qed.

Lemma argument_or_default (o : gmap string value) (k : string) (d : value) :
  with_default (get o k) d = argument_or o k d.
Proof.
  unfold get, argument_or. destruct (o !! k) as [v |]; [| reflexivity].
  destruct v; reflexivity.
Qed.

Lemma argument_or_get (o : gmap string value) (k : string) :
  get o k = argument_or o k VUndefined.
Proof.
  unfold get, argument_or. destruct (o !! k) as [v |]; [| reflexivity].
  destruct v; reflexivity.
Qed.

Section Dispatcher.

Context {W : Type} (h : env W).
Variable Number_toString : Q -> string.
Variable embeddingService : EmbeddingService.t.
Variable qdrantService : QdrantService.t.

Local Abbreviation callTool :=
  (Server.callTool Number_toString embeddingService qdrantService).
Local Abbreviation switch :=
  (Server.switch Number_toString embeddingService qdrantService).
Local Abbreviation collection := (QdrantService.collectionName qdrantService).
Local Abbreviation model := (EmbeddingService.model embeddingService).
Local Abbreviation dimensions := (EmbeddingService.dimensions embeddingService).

(** A [catch] that only builds a value turns a raised exception into that
    value and changes neither the final state nor the trace. *)
Lemma exec_try_catch_ret {A} (p : prog A) (f : exn -> A) (w : W) :
  exec h (try_catch p (fun e => Ret (f e))) w =
  Run (match outcome (exec h p w) with
       | inl e => inr (f e)
       | inr a => inr a
       end)
      (final (exec h p w)) (trace (exec h p w)).
Proof.
  revert w. induction p as [a | e | c k IH]; intros w; simpl; try reflexivity.
  rewrite IH. reflexivity.
Qed.

(** C5. A tool name outside the seven-tool catalogue yields the error-tagged
    response (isError true, success false, message "Unknown tool: name"), and
    no request at all is made to the embedding provider or to the store. *)
Theorem unknown_tool_is_error_tagged (name : string)
    (args : option (gmap string value)) (w : W) :
  name ∉ Server.tool_names ->
  exists res,
    exec h (callTool name args) w = Run (inr res) w []
    /\ res = Server.error_result ("Unknown tool: " +:+ name)
    /\ Server.isError res = Some true
    /\ success_field res = Some false
    /\ envelope res (Some true)
         (obj [("success", VBool false);
               ("error", VStr ("Unknown tool: " +:+ name))]).
Proof.
  intros Hn. eexists. split; [| repeat split].
  unfold Server.callTool, Server.switch.
  rewrite !(not_a_tool name)
    by (assumption
        || (cbv [Server.tool_names Server.tools map Server.name]; set_solver)).
  reflexivity.
Qed.

(** C2 (as amended). The guard of clear_all_memories is the falsy test on
    [confirm]: for an arguments object whose [confirm] is falsy (false,
    missing, null, 0 or the empty string) no request is made and the ordinary
    response with success false is returned; when [confirm] is truthy the
    first request is the delete with the empty filter.  When the arguments
    record itself is absent the response is error-tagged and no request is
    made. *)
Theorem clear_all_guard_is_truthiness (o : gmap string value) (w : W) :
  (if to_boolean (get o "confirm")
   then
     head (requests (trace (exec h (callTool "clear_all_memories" (Some o)) w)))
     = Some (Delete collection true (ByFilter (VObj ∅)))
   else
     exec h (callTool "clear_all_memories" (Some o)) w
     = Run (inr (Server.text_result
                   (obj [("success", VBool false);
                         ("message",
                          VStr "You must confirm with confirm=true to delete all memories")])))
           w [])
  /\ (exists res,
        exec h (callTool "clear_all_memories" None) w = Run (inr res) w []
        /\ Server.isError res = Some true
        /\ success_field res = Some false)
  /\ (if to_boolean (get o "confirm")
      then True
      else
        answers (exec h (callTool "clear_all_memories" (Some o)) w) None
          (obj [("success", VBool false);
                ("message",
                 VStr "You must confirm with confirm=true to delete all memories")])).
Proof.
  split; [| split].
  - run_handler. destruct (to_boolean (get o "confirm")); simpl; reflexivity.
  - eexists. split; [reflexivity | split; reflexivity].
  - run_handler. destruct (to_boolean (get o "confirm")); simpl; [exact I |].
    eexists. split; [reflexivity |]. apply text_result_envelope.
Qed.

(** The run of get_memory once the store has answered. *)
Lemma get_memory_run (o : gmap string value) (w w1 : W)
    (results : list QdrantPoint) :
  h (Retrieve collection [get o "id"] true false) w = (inr results, w1) ->
  exec h (callTool "get_memory" (Some o)) w =
  Run (inr (Server.text_result
              match results with
              | [] =>
                  obj [("success", VBool false);
                       ("message",
                        VStr ("Memory " +:+ ToString Number_toString (get o "id")
                                +:+ " not found"))]
              | memory :: _ =>
                  obj [("success", VBool true);
                       ("memory",
                        VObj (obj [("id", pt_id memory);
                                   ("payload", pt_payload memory)]))]
              end))
      w1 [Ev (Retrieve collection [get o "id"] true false) (inr results)].
Proof.
  intros H. run_handler. rewrite H. simpl.
  destruct results; reflexivity.
Qed.

(** C6. When the store's retrieve answers with no record, get_memory returns
    the ordinary (not error-tagged) response with success false and the
    not-found message, and raises nothing; when it answers with a record, the
    response has success true and carries that record's id and payload. *)
Theorem get_memory_found_or_not (o : gmap string value) (w w1 : W)
    (results : list QdrantPoint) :
  h (Retrieve collection [get o "id"] true false) w = (inr results, w1) ->
  exists res,
    exec h (callTool "get_memory" (Some o)) w
    = Run (inr res) w1
          [Ev (Retrieve collection [get o "id"] true false) (inr results)]
    /\ Server.isError res = None
    /\ match results with
       | [] =>
           res = Server.text_result
                   (obj [("success", VBool false);
                         ("message",
                          VStr ("Memory " +:+ ToString Number_toString (get o "id")
                                  +:+ " not found"))])
       | memory :: _ =>
           res = Server.text_result
                   (obj [("success", VBool true);
                         ("memory",
                          VObj (obj [("id", pt_id memory);
                                     ("payload", pt_payload memory)]))])
       end
    /\ match results with
       | [] =>
           success_field res = Some false
           /\ envelope res None
                (obj [("success", VBool false);
                      ("message",
                       VStr ("Memory " +:+ ToString Number_toString (get o "id")
                               +:+ " not found"))])
       | memory :: _ =>
           success_field res = Some true
           /\ envelope res None
                (obj [("success", VBool true);
                      ("memory",
                       VObj (obj [("id", pt_id memory);
                                  ("payload", pt_payload memory)]))])
           /\ opt_chain (get (body_of res) "memory") "id" = pt_id memory
           /\ opt_chain (get (body_of res) "memory") "payload" = pt_payload memory
       end.
Proof.
  intros H. eexists. split; [apply get_memory_run; exact H |].
  split; [reflexivity |]. split; destruct results; repeat split.
Qed.

Ltac split_cases :=
  repeat (simpl in *;
    match goal with
    | |- context [match data ?r with _ => _ end] => destruct (data r) eqn:?
    | |- context [Server.content_preview ?v] => destruct v eqn:?
    | |- context [if negb (to_boolean ?v) then _ else _] =>
        destruct (to_boolean v) eqn:?
    | |- context [match ?l with [] => None | _ :: _ => _ end] => destruct l
    | |- context [existsb ?f ?l] => destruct (existsb f l) eqn:?
    | |- context [h ?c ?w] => next_answer h
    end).

Ltac finish_case :=
  simpl;
  try match goal with
  | |- ordinary _ => split; [reflexivity | eexists; reflexivity]
  | |- Forall _ _ => repeat constructor
  | |- _ = _ => reflexivity
  end.

Lemma switch_outcome (name : string) (args : option (gmap string value)) (w : W) :
  match outcome (exec h (switch name args) w) with
  | inl e => True
  | inr res => ordinary res
  end.
Proof.
  unfold Server.switch.
  repeat match goal with
  | |- context [String.eqb name ?s] => destruct (String.eqb name s)
  end;
  try (destruct args as [o |]); split_cases; finish_case; exact I.
Qed.

Lemma switch_rejections (name : string) (args : option (gmap string value)) (w : W) :
  Forall (raises (outcome (exec h (switch name args) w)))
         (trace (exec h (switch name args) w)).
Proof.
  unfold Server.switch.
  repeat match goal with
  | |- context [String.eqb name ?s] => destruct (String.eqb name s)
  end;
  try (destruct args as [o |]); split_cases; finish_case.
Qed.

Lemma switch_envelope (name : string) (args : option (gmap string value)) (w : W) :
  match outcome (exec h (switch name args) w) with
  | inl e => True
  | inr res =>
      exists body b, envelope res None body /\ body !! "success" = Some (VBool b)
  end.
Proof.
  unfold Server.switch.
  repeat match goal with
  | |- context [String.eqb name ?s] => destruct (String.eqb name s)
  end;
  try (destruct args as [o |]); split_cases; simpl; try exact I;
    (do 2 eexists; split; [split; reflexivity | reflexivity]).
Qed.

(** C4. Every call returns an envelope, never an escaped exception: a single
    text item whose JSON body has a boolean success field.  An exception
    raised inside the switch (by a handler, by the unknown-tool default, or
    re-raised from a leaf client) becomes the error-tagged response
    (isError true) whose body is success false together with that
    exception's message in its error field; otherwise the handler's ordinary
    result is returned unchanged.  Whenever a call to the embedding provider
    or to the store is rejected, the response is the error-tagged one with
    the message of that very exception. *)
Theorem dispatcher_catches_everything (name : string)
    (args : option (gmap string value)) (w : W) :
  (exists res,
     outcome (exec h (callTool name args) w) = inr res
     /\ is_Some (success_field res)
     /\ (Server.isError res = None
         \/ Server.isError res = Some true /\ success_field res = Some false))
  /\ match outcome (exec h (switch name args) w) with
     | inl e =>
         outcome (exec h (callTool name args) w)
         = inr (Server.error_result (errorMessage Number_toString e))
     | inr res =>
         outcome (exec h (callTool name args) w) = inr res /\ ordinary res
     end
  /\ Forall (reports Number_toString (outcome (exec h (callTool name args) w)))
            (trace (exec h (callTool name args) w))
  /\ (exists body tag b,
        answers (exec h (callTool name args) w) tag body
        /\ body !! "success" = Some (VBool b))
  /\ match outcome (exec h (switch name args) w) with
     | inl e =>
         answers (exec h (callTool name args) w) (Some true)
           (obj [("success", VBool false);
                 ("error", VStr (message_of Number_toString e))])
     | inr res =>
         exists body,
           envelope res None body
           /\ answers (exec h (callTool name args) w) None body
     end
  /\ Forall (reports_message Number_toString (exec h (callTool name args) w))
            (trace (exec h (callTool name args) w)).
Proof.
  unfold answers, reports_message, answers.
  unfold Server.callTool. rewrite exec_try_catch_ret. simpl.
  pose proof (switch_outcome name args w) as Hout.
  pose proof (switch_envelope name args w) as Henv.
  pose proof (switch_rejections name args w) as Hrej.
  destruct (outcome (exec h (switch name args) w)) as [e | res] eqn:Hsw.
  - split; [| split; [| split; [| split; [| split]]]].
    + eexists. split; [reflexivity |]. split; [eexists; reflexivity |].
      right. split; reflexivity.
    + reflexivity.
    + eapply Forall_impl; [exact Hrej |].
      intros ev. unfold raises, reports.
      destruct (rejection ev); [| trivial]. intros [= ->]. reflexivity.
    + exists (error_body Number_toString e), (Some true), false.
      split; [| reflexivity]. eexists. split; [reflexivity |].
      apply error_result_envelope.
    + eexists. split; [reflexivity |]. apply error_result_envelope.
    + eapply Forall_impl; [exact Hrej |].
      intros ev. unfold raises.
      destruct (rejection ev); [| trivial]. intros [= ->].
      eexists. split; [reflexivity |]. apply error_result_envelope.
  - split; [| split; [| split; [| split; [| split]]]].
    + exists res. split; [reflexivity |]. destruct Hout as [Hno Hs].
      split; [exact Hs |]. left. exact Hno.
    + split; [reflexivity | exact Hout].
    + eapply Forall_impl; [exact Hrej |].
      intros ev. unfold raises, reports.
      destruct (rejection ev); [| trivial]. discriminate.
    + destruct Henv as (body & b & He & Hb).
      exists body, None, b. split; [| exact Hb].
      exists res. split; [reflexivity | exact He].
    + destruct Henv as (body & b & He & Hb).
      exists body. split; [exact He |]. exists res. split; [reflexivity | exact He].
    + eapply Forall_impl; [exact Hrej |].
      intros ev. unfold raises.
      destruct (rejection ev); [| trivial]. discriminate.
Qed.

(** The only run of store_memory that ends in a result without the error
    tag: both clients answered, and the content is a string. *)
Lemma store_memory_success (o : gmap string value) (s : string)
    (w : W) (res : Server.CallToolResult) :
  o !! "content" = Some (VStr s) ->
  outcome (exec h (callTool "store_memory" (Some o)) w) = inr res ->
  Server.isError res = None ->
  exists id now resp d w1 w2 w3 w4,
    h (EmbeddingsCreate model (VStr s) dimensions) w = (inr resp, w1)
    /\ head (data resp) = Some d
    /\ h UuidV4 w1 = (id, w2)
    /\ h DateNowISO w2 = (now, w3)
    /\ h (Upsert collection true
            [{| ps_id := id; ps_vector := embedding d;
                ps_payload :=
                  spread (obj [("content", VStr s); ("timestamp", VStr now)])
                         (with_default (get o "metadata") (VObj ∅)) |}]) w3
       = (inr tt, w4)
    /\ exec h (callTool "store_memory" (Some o)) w
       = Run (inr (Server.text_result
                     (obj [("success", VBool true);
                           ("message", VStr "Memory stored successfully");
                           ("id", VStr id);
                           ("content", VStr (truncated s));
                           ("metadata", with_default (get o "metadata") (VObj ∅))])))
             w4
             [Ev (EmbeddingsCreate model (VStr s) dimensions) (inr resp);
              Ev UuidV4 id;
              Ev DateNowISO now;
              Ev (Upsert collection true
                    [{| ps_id := id; ps_vector := embedding d;
                        ps_payload :=
                          spread (obj [("content", VStr s); ("timestamp", VStr now)])
                                 (with_default (get o "metadata") (VObj ∅)) |}])
                 (inr tt)]
    /\ res = Server.text_result
               (obj [("success", VBool true);
                     ("message", VStr "Memory stored successfully");
                     ("id", VStr id);
                     ("content", VStr (truncated s));
                     ("metadata", with_default (get o "metadata") (VObj ∅))]).
Proof.
  intros Hc Hout Hne.
  assert (Hg : get o "content" = VStr s) by (unfold get; rewrite Hc; reflexivity).
  revert Hout. run_handler. rewrite !Hg. simpl.
  next_answer h; [intros; absurd_error |].
  destruct (data r) as [| d ds] eqn:Hd; simpl; [intros; absurd_error |].
  next_answer h. next_answer h.
  next_answer h; [intros; absurd_error |].
  intros [= <-]. destruct r0.
  exists a, a0, r, d, w0, w1, w2, w3. rewrite Hd, preview_truncated.
  repeat split; first [assumption | reflexivity].
Qed.


(** C8. search_memory embeds the query and hands the resulting vector to the
    store's search together with limit, threshold and filter exactly as the
    caller supplied them, 5 and 0.7 standing in for an omitted limit and
    threshold: in every run, whatever the environment answers, a search
    request has exactly these parameters and there is at most one of them,
    so the threshold is never lowered for a second attempt.  When both
    clients answer, the response is the ordinary one with success true and
    the formatted hits; for zero hits it has results_count 0 and an empty
    results list. *)
Theorem search_memory_passes_parameters (o : gmap string value) (w : W) :
  (Forall (search_with collection
             (argument_or o "limit" (VNum (inject_Z 5)))
             (argument_or o "threshold" (VNum (7 # 10)))
             (argument_or o "filter" VUndefined))
          (requests (trace (exec h (callTool "search_memory" (Some o)) w)))
   /\ length (List.filter is_search
                (requests (trace (exec h (callTool "search_memory" (Some o)) w))))
      <= 1)
  /\ (forall resp d w1 results w2,
        h (EmbeddingsCreate model (argument_or o "query" VUndefined) dimensions) w
        = (inr resp, w1) ->
        head (data resp) = Some d ->
        h (Search collection (embedding d)
             (argument_or o "limit" (VNum (inject_Z 5)))
             (argument_or o "threshold" (VNum (7 # 10)))
             true (argument_or o "filter" VUndefined)) w1 = (inr results, w2) ->
        (exists res,
           exec h (callTool "search_memory" (Some o)) w
           = Run (inr res) w2
               [Ev (EmbeddingsCreate model (argument_or o "query" VUndefined)
                      dimensions) (inr resp);
                Ev (Search collection (embedding d)
                      (argument_or o "limit" (VNum (inject_Z 5)))
                      (argument_or o "threshold" (VNum (7 # 10)))
                      true (argument_or o "filter" VUndefined)) (inr results)]
           /\ envelope res None
                (obj [("success", VBool true);
                      ("query", argument_or o "query" VUndefined);
                      ("results_count",
                       VNum (inject_Z (Z.of_nat (length results))));
                      ("results", VArr (map Server.format_result results))])
           /\ success_field res = Some true)
        /\ (results = [] ->
            answers (exec h (callTool "search_memory" (Some o)) w) None
              (obj [("success", VBool true);
                    ("query", argument_or o "query" VUndefined);
                    ("results_count", VNum (inject_Z 0));
                    ("results", VArr [])]))).
Proof.
  rewrite <- !argument_or_get, <- !argument_or_default.
  split.
  - run_handler. rewrite !with_default_idem.
    split; split_cases; simpl; try lia;
      repeat constructor.
  - intros resp d w1 results w2 E1 Hd E2.
    assert (Hrun : exec h (callTool "search_memory" (Some o)) w
                   = Run (inr (Server.text_result
                      (obj [("success", VBool true);
                            ("query", get o "query");
                            ("results_count",
                             Server.length_number (map Server.format_result results));
                            ("results", VArr (map Server.format_result results))])))
              w2
              [Ev (EmbeddingsCreate model (get o "query") dimensions) (inr resp);
               Ev (Search collection (embedding d)
                     (with_default (get o "limit") (VNum (inject_Z 5)))
                     (with_default (get o "threshold") (VNum (7 # 10)))
                     true (get o "filter")) (inr results)]).
    { run_handler. rewrite !with_default_idem. rewrite E1. simpl.
      destruct (data resp) as [| d' ds]; [discriminate |].
      injection Hd as ->. simpl. rewrite E2. reflexivity. }
    split.
    + eexists. split; [exact Hrun |]. split; [| reflexivity].
      split; [| reflexivity]. unfold Server.text_result, Server.length_number.
      cbn [Server.content]. rewrite length_map. reflexivity.
    + intros ->. eexists. rewrite Hrun. split; [reflexivity |].
      apply text_result_envelope.
Qed.

Lemma format_result_item (p : QdrantPoint) : item_of p (Server.format_result p).
Proof. repeat split. Qed.

Lemma format_memory_item (p : QdrantPoint) : item_of p (Server.format_memory p).
Proof. repeat split. Qed.

(** C10. In a successful search_memory or list_memories response the items
    are built one per record answered by the store, in order; the metadata
    field of an item is the record's whole payload as stored (reserved
    content and timestamp entries included, not only the caller's metadata),
    and content (for list_memories also timestamp) repeats the entry of that
    same payload. *)
Theorem items_carry_whole_payload (o : gmap string value) (w : W) :
  (forall res,
     outcome (exec h (callTool "search_memory" (Some o)) w) = inr res ->
     Server.isError res = None ->
     exists vector limit threshold filter results items,
       last (trace (exec h (callTool "search_memory" (Some o)) w))
       = Some (Ev (Search collection vector limit threshold true filter)
                  (inr results))
       /\ get (body_of res) "results" = VArr items
       /\ items = map Server.format_result results
       /\ Forall2 (fun p item =>
                     item_of p item
                     /\ opt_chain item "score" = pt_score p)
                  results items)
  /\ (forall res,
        outcome (exec h (callTool "list_memories" (Some o)) w) = inr res ->
        Server.isError res = None ->
        exists limit offset page items,
          trace (exec h (callTool "list_memories" (Some o)) w)
          = [Ev (Scroll collection limit offset true false) (inr page)]
          /\ get (body_of res) "memories" = VArr items
          /\ items = map Server.format_memory (points page)
          /\ Forall2 (fun p item =>
                        item_of p item
                        /\ opt_chain item "timestamp"
                           = opt_chain (opt_chain item "metadata") "timestamp")
                     (points page) items).
Proof.
  split; intros res Hout Hne; revert Hout; run_handler.
  - next_answer h; [intros; absurd_error |].
    destruct (data r) as [| d ds] eqn:Hd; simpl; [intros; absurd_error |].
    next_answer h; [intros; absurd_error |].
    intros [= <-]. do 4 eexists. exists r0, (map Server.format_result r0).
    split; [reflexivity |]. split; [reflexivity |]. split; [reflexivity |].
    clear. induction r0 as [| p ps IH]; constructor; [| exact IH].
    split; [apply format_result_item | reflexivity].
  - next_answer h; [intros; absurd_error |].
    intros [= <-]. do 2 eexists. exists r, (map Server.format_memory (points r)).
    split; [reflexivity |]. split; [reflexivity |]. split; [reflexivity |].
    clear. induction (points r) as [| p ps IH]; constructor; [| exact IH].
    split; [apply format_memory_item | reflexivity].
Qed.

(** C3 (as amended). The dispatcher does not check the fields that the input
    schema declares required.  For an arguments object that lacks the field,
    store_memory and search_memory call the embedding client with input
    undefined, delete_memory and get_memory call the store client with id
    undefined, and clear_all_memories reads the missing confirm as false (no
    request, ordinary response with success false).  Only when the arguments
    record itself is absent is a tool that reads it rejected before any
    request, by the TypeError of the destructuring caught in the
    dispatcher. *)
Theorem required_fields_are_not_checked (o : gmap string value) (w : W) :
  (o !! "content" = None ->
   head (requests (trace (exec h (callTool "store_memory" (Some o)) w)))
   = Some (EmbeddingsCreate model VUndefined dimensions))
  /\ (o !! "query" = None ->
      head (requests (trace (exec h (callTool "search_memory" (Some o)) w)))
      = Some (EmbeddingsCreate model VUndefined dimensions))
  /\ (o !! "id" = None ->
      head (requests (trace (exec h (callTool "delete_memory" (Some o)) w)))
      = Some (Delete collection true (ByPoints [VUndefined]))
      /\ head (requests (trace (exec h (callTool "get_memory" (Some o)) w)))
         = Some (Retrieve collection [VUndefined] true false))
  /\ (o !! "confirm" = None ->
      exec h (callTool "clear_all_memories" (Some o)) w
      = Run (inr (Server.text_result
                    (obj [("success", VBool false);
                          ("message",
                           VStr "You must confirm with confirm=true to delete all memories")])))
            w [])
  /\ (forall name field,
        Server.required_fields name = [field] ->
        exec h (callTool name None) w
        = Run (inr (Server.error_result
                      ("Cannot destructure property '" +:+ field
                         +:+ "' of 'args' as it is undefined.")))
              w [])
  /\ (o !! "confirm" = None ->
      answers (exec h (callTool "clear_all_memories" (Some o)) w) None
        (obj [("success", VBool false);
              ("message",
               VStr "You must confirm with confirm=true to delete all memories")]))
  /\ (forall name field,
        Server.required_fields name = [field] ->
        answers (exec h (callTool name None) w) (Some true)
          (obj [("success", VBool false);
                ("error",
                 VStr ("Cannot destructure property '" +:+ field
                         +:+ "' of 'args' as it is undefined."))])).
Proof.
  assert (Hconfirm :
    o !! "confirm" = None ->
    exec h (callTool "clear_all_memories" (Some o)) w
    = Run (inr (Server.text_result
                  (obj [("success", VBool false);
                        ("message",
                         VStr "You must confirm with confirm=true to delete all memories")])))
          w []).
  { intros Hm. run_handler. unfold get. rewrite Hm. reflexivity. }
  assert (Habsent :
    forall name field,
      Server.required_fields name = [field] ->
      exec h (callTool name None) w
      = Run (inr (Server.error_result
                    ("Cannot destructure property '" +:+ field
                       +:+ "' of 'args' as it is undefined.")))
            w []).
  { intros name field. unfold Server.callTool, Server.switch.
    repeat match goal with
    | |- context [String.eqb name ?s] =>
        destruct (String.eqb_spec name s) as [-> | ?];
        [intros [= <-]; reflexivity |]
    end.
    unfold Server.required_fields, Server.tools, find, Server.name.
    repeat match goal with
    | |- context [String.eqb ?s name] =>
        destruct (String.eqb_spec s name) as [<- | ?]; [congruence |]
    end.
    discriminate. }
  split; [| split; [| split; [| split; [| split; [| split]]]]].
  - intros Hm. run_handler. unfold get. rewrite Hm. reflexivity.
  - intros Hm. run_handler. unfold get. rewrite Hm. reflexivity.
  - intros Hm. split; run_handler; unfold get; rewrite Hm; reflexivity.
  - exact Hconfirm.
  - exact Habsent.
  - intros Hm. rewrite (Hconfirm Hm).
    eexists. split; [reflexivity |]. apply text_result_envelope.
  - intros name field Hf. rewrite (Habsent name field Hf).
    eexists. split; [reflexivity |]. split; reflexivity.
Qed.

(** X19. With the arguments record absent, list_memories, whose first destructured
    property has a default value, is rejected before any request with the
    TypeError of reading limit from undefined; the response is the
    error-tagged one with that message. *)
Theorem list_memories_without_arguments (w : W) :
  exec h (callTool "list_memories" None) w
  = Run (outcome (exec h (callTool "list_memories" None) w)) w []
  /\ answers (exec h (callTool "list_memories" None) w) (Some true)
       (obj [("success", VBool false);
             ("error",
              VStr "Cannot read properties of undefined (reading 'limit')")]).
Proof.
  split; [reflexivity |].
  eexists. split; [reflexivity |]. split; reflexivity.
Qed.

End Dispatcher.

(* ===================================================================== *)
(** ** Properties against the reference environment                       *)
(* ===================================================================== *)

Section Startup.

Variable qdrantService : QdrantService.t.
Local Abbreviation collection := (QdrantService.collectionName qdrantService).

Local Abbreviation listed m :=
  ((fun e : string * Reference.Collection => {| cd_name := e.1 |})
     <$> map_to_list m).

Lemma listed_exists (m : gmap string Reference.Collection) (name : string) :
  existsb (fun col => String.eqb (cd_name col) name) (listed m)
  = bool_decide (is_Some (m !! name)).
Proof.
  apply eq_true_iff_eq. rewrite existsb_exists, bool_decide_eq_true. split.
  - intros (col & Hin & Heq). apply String.eqb_eq in Heq.
    apply list_elem_of_In, list_elem_of_fmap in Hin as ([n c] & -> & Hin).
    apply elem_of_map_to_list in Hin. simpl in Heq. subst. eauto.
  - intros [c Hc]. exists {| cd_name := name |}. split.
    + apply list_elem_of_In, list_elem_of_fmap. exists (name, c).
      split; [reflexivity |]. apply elem_of_map_to_list. exact Hc.
    + apply String.eqb_refl.
Qed.

Lemma create_when_present (vectorSize : value) (w : Reference.World)
    (col : Reference.Collection) :
  Reference.store w !! collection = Some col ->
  exec Reference.respond (QdrantService.createCollection qdrantService vectorSize) w
  = Run (inr tt) w
        [Ev GetCollections (inr {| collections := listed (Reference.store w) |});
         Ev (ConsoleError ("Collection " +:+ dquote +:+ collection +:+ dquote
                             +:+ " already exists") None) tt].
Proof.
  intros Hcol. unfold QdrantService.createCollection. simpl.
  rewrite listed_exists, bool_decide_eq_true_2 by eauto. reflexivity.
Qed.

Lemma create_when_absent (vectorSize : value) (w : Reference.World) :
  Reference.store w !! collection = None ->
  exec Reference.respond (QdrantService.createCollection qdrantService vectorSize) w
  = Run (inr tt)
        (Reference.with_store w
           (<[collection :=
                {| Reference.vectors_size :=
                     with_default vectorSize (VNum (inject_Z 1536));
                   Reference.vectors_distance := "Cosine";
                   Reference.stored := ∅ |}]> (Reference.store w)))
        [Ev GetCollections (inr {| collections := listed (Reference.store w) |});
         Ev (CreateCollection collection
               (with_default vectorSize (VNum (inject_Z 1536))) "Cosine")
            (inr true);
         Ev (ConsoleError ("Collection " +:+ dquote +:+ collection +:+ dquote
                             +:+ " created successfully") None) tt].
Proof.
  intros Hcol. unfold QdrantService.createCollection. simpl.
  rewrite listed_exists, bool_decide_eq_false_2 by (rewrite Hcol; intros [? ?]; discriminate).
  simpl. rewrite Hcol. reflexivity.
Qed.

(** C9. createCollection first lists the collections and asks for a create
    only when the list has no collection of the configured name: whatever the
    environment, the first request is the listing and a create request
    occurs exactly when the listing succeeded without that name.  Against the
    reference store, a run on a state that has the collection makes no create
    request and leaves the state, hence the collection's parameters and
    records, unchanged; a run on a state without it creates it empty with
    the given size and cosine distance; and a second run, even with another
    size, changes nothing. *)
Theorem createCollection_is_create_if_absent (vectorSize : value) :
  (forall (W : Type) (h : env W) (w : W),
     head (requests (trace (exec h (QdrantService.createCollection qdrantService vectorSize) w)))
     = Some GetCollections
     /\ List.filter is_create_collection
          (requests (trace (exec h (QdrantService.createCollection qdrantService vectorSize) w)))
        = match (h GetCollections w).1 with
          | inr cols =>
              if existsb (fun col => String.eqb (cd_name col) collection)
                         (collections cols)
              then []
              else [CreateCollection collection
                      (with_default vectorSize (VNum (inject_Z 1536))) "Cosine"]
          | inl _ => []
          end)
  /\ (forall (w : Reference.World) (col : Reference.Collection),
        Reference.store w !! collection = Some col ->
        outcome (exec Reference.respond
                   (QdrantService.createCollection qdrantService vectorSize) w)
        = inr tt
        /\ final (exec Reference.respond
                   (QdrantService.createCollection qdrantService vectorSize) w)
           = w
        /\ List.filter is_create_collection
             (requests (trace (exec Reference.respond
                (QdrantService.createCollection qdrantService vectorSize) w)))
           = [])
  /\ (forall (w : Reference.World),
        Reference.store w !! collection = None ->
        Reference.store
          (final (exec Reference.respond
                    (QdrantService.createCollection qdrantService vectorSize) w))
        = <[collection :=
              {| Reference.vectors_size :=
                   with_default vectorSize (VNum (inject_Z 1536));
                 Reference.vectors_distance := "Cosine";
                 Reference.stored := ∅ |}]> (Reference.store w))
  /\ (forall (w : Reference.World) (vectorSize' : value),
        final (exec Reference.respond
                 (QdrantService.createCollection qdrantService vectorSize')
                 (final (exec Reference.respond
                    (QdrantService.createCollection qdrantService vectorSize) w)))
        = final (exec Reference.respond
                   (QdrantService.createCollection qdrantService vectorSize) w)).
Proof.
  split; [| split; [| split]].
  - intros W h w. unfold QdrantService.createCollection. simpl.
    split; [reflexivity |].
    destruct (h GetCollections w) as [[e | cols] w1]; simpl; [reflexivity |].
    destruct (existsb _ (collections cols)); simpl; [reflexivity |].
    destruct (h (CreateCollection _ _ _) w1) as [[e | b] w2]; reflexivity.
  - intros w col Hcol. rewrite (create_when_present _ _ _ Hcol).
    repeat split.
  - intros w Hcol. rewrite (create_when_absent _ _ Hcol). reflexivity.
  - intros w vectorSize'.
    destruct (Reference.store w !! collection) as [col |] eqn:Hcol.
    + rewrite (create_when_present vectorSize _ _ Hcol). cbn [final].
      rewrite (create_when_present vectorSize' _ _ Hcol). reflexivity.
    + rewrite (create_when_absent vectorSize _ Hcol). cbn [final].
      erewrite create_when_present; [reflexivity |].
      cbn [Reference.store Reference.with_store]. apply lookup_insert_eq.
Qed.

End Startup.

Section Roundtrip.

Variable Number_toString : Q -> string.
Variable embeddingService : EmbeddingService.t.
Variable qdrantService : QdrantService.t.

Local Abbreviation callTool :=
  (Server.callTool Number_toString embeddingService qdrantService).
Local Abbreviation collection := (QdrantService.collectionName qdrantService).

Lemma spread_lookup_src (literal : gmap string value) (src : value)
    (k : string) (v : value) :
  own_props src !! k = Some v -> spread literal src !! k = Some v.
Proof. intros H. unfold spread. apply lookup_union_Some_l. exact H. Qed.

Lemma spread_lookup_literal (literal : gmap string value) (src : value)
    (k : string) :
  own_props src !! k = None -> spread literal src !! k = literal !! k.
Proof. intros H. unfold spread. apply lookup_union_r. exact H. Qed.

(** C1 (as amended). Against the reference store: when store_memory on a
    string content returns its ordinary response, get_memory with the id of
    that response returns success true and a record under that id whose
    payload is the literal with content and timestamp overlaid by the
    supplied metadata.  Hence every key of the metadata is in the payload
    with the metadata's value, a timestamp entry is present, and the content
    entry is the original content provided the metadata has no key named
    content. *)
Theorem store_then_get_roundtrip (o : gmap string value) (s : string)
    (w : Reference.World) (res : Server.CallToolResult) :
  o !! "content" = Some (VStr s) ->
  outcome (exec Reference.respond (callTool "store_memory" (Some o)) w) = inr res ->
  Server.isError res = None ->
  exists id payload,
    get (body_of res) "id" = VStr id
    /\ outcome
         (exec Reference.respond
            (callTool "get_memory" (Some (obj [("id", VStr id)])))
            (final (exec Reference.respond (callTool "store_memory" (Some o)) w)))
       = inr (Server.text_result
                (obj [("success", VBool true);
                      ("memory",
                       VObj (obj [("id", VStr id);
                                  ("payload", VObj payload)]))]))
    /\ payload
       = spread (obj [("content", VStr s);
                      ("timestamp", VStr (Reference.clock w))])
                (with_default (get o "metadata") (VObj ∅))
    /\ (forall k v,
          own_props (with_default (get o "metadata") (VObj ∅)) !! k = Some v ->
          payload !! k = Some v)
    /\ is_Some (payload !! "timestamp")
    /\ (own_props (with_default (get o "metadata") (VObj ∅)) !! "content" = None ->
        payload !! "content" = Some (VStr s)).
Proof.
  intros Hc Hout Hne.
  destruct (store_memory_success Reference.respond Number_toString
              embeddingService qdrantService o s w res Hc Hout Hne)
    as (id & now & resp & d & w1 & w2 & w3 & w4
        & He & Hd & Hid & Hnow & Hup & Hrun & ->).
  simpl in He, Hid, Hnow.
  injection He as He <-. injection Hid as <- <-. injection Hnow as <- <-.
  cbn [Reference.respond] in Hup. unfold Reference.on_collection in Hup.
  cbn [Reference.store Reference.after_id] in Hup.
  destruct (Reference.store w !! collection) as [col |] eqn:Hcol;
    [| discriminate].
  injection Hup as <-.
  exists (Reference.next_id w). eexists.
  split; [reflexivity |].
  rewrite Hrun. cbn [final].
  split; [| split; [reflexivity |]].
  - match goal with
    | |- context [exec _ _ ?w4] =>
        assert (Hret :
          Reference.respond
            (Retrieve collection [VStr (Reference.next_id w)] true false) w4
          = (inr [Reference.to_point
                    (Reference.next_id w,
                     {| Reference.sp_vector := embedding d;
                        Reference.sp_payload :=
                          spread (obj [("content", VStr s);
                                       ("timestamp", VStr (Reference.clock w))])
                                 (with_default (get o "metadata") (VObj ∅)) |})],
             w4))
    end.
    { cbn [Reference.respond]. unfold Reference.on_collection.
      cbn [Reference.store Reference.with_store].
      rewrite lookup_insert_eq.
      cbn [forallb Reference.is_string andb omap list_omap
           Reference.lookup_point Reference.stored Reference.with_stored
           foldl ps_id ps_vector ps_payload].
      rewrite lookup_insert_eq. reflexivity. }
    rewrite (get_memory_run Reference.respond Number_toString embeddingService
               qdrantService (obj [("id", VStr (Reference.next_id w))])
               _ _ _ Hret).
    reflexivity.
  - split; [| split].
    + intros k v Hk. apply spread_lookup_src. exact Hk.
    + destruct (own_props (with_default (get o "metadata") (VObj ∅)) !! "timestamp")
        as [v |] eqn:Hts.
      * exists v. apply spread_lookup_src. exact Hts.
      * eexists. rewrite spread_lookup_literal by exact Hts. reflexivity.
    + intros Hnone. rewrite spread_lookup_literal by exact Hnone. reflexivity.
Qed.

End Roundtrip.

(* ===================================================================== *)
(** ** Concrete runs                                                      *)
(* ===================================================================== *)

(** C5 at the tool name "frobnicate". *)
Lemma unknown_tool_witness :
  ("frobnicate" ∉ Server.tool_names)
  /\ (exists res,
        Demo.run_tool "frobnicate" (Some ∅) Demo.fresh = Run (inr res) Demo.fresh []
        /\ res = Server.error_result "Unknown tool: frobnicate"
        /\ Server.isError res = Some true
        /\ success_field res = Some false
        /\ envelope res (Some true)
             (obj [("success", VBool false);
                   ("error", VStr "Unknown tool: frobnicate")])).
Proof.
  assert (Hn : "frobnicate" ∉ Server.tool_names).
  { apply (bool_decide_unpack _). vm_compute. exact I. }
  split; [exact Hn |].
  exact (unknown_tool_is_error_tagged Reference.respond Demo.Number_toString
           Demo.embeddingService Demo.qdrantService "frobnicate" (Some ∅)
           Demo.fresh Hn).
Defined.

(** C4 on a search whose query is missing, so that the embedding provider
    rejects the call: the response is error-tagged and its body carries
    success false and the provider's message. *)
Lemma dispatcher_catches_witness :
  answers (Demo.run_tool "search_memory" (Some ∅) Demo.fresh) (Some true)
    (obj [("success", VBool false); ("error", VStr "400 Invalid input")])
  /\ Forall (reports_message Demo.Number_toString
               (Demo.run_tool "search_memory" (Some ∅) Demo.fresh))
            [Ev (EmbeddingsCreate "text-embedding-3-large" VUndefined
                   (inject_Z 1536))
                (inl (ErrorObject "400 Invalid input"));
             Ev (ConsoleError "Error generating embedding:"
                   (Some (ErrorObject "400 Invalid input"))) tt].
Proof.
  destruct (dispatcher_catches_everything Reference.respond
              Demo.Number_toString Demo.embeddingService Demo.qdrantService
              "search_memory" (Some ∅) Demo.fresh)
    as (_ & _ & _ & _ & Hcaught & Hrejected).
  split; [exact Hcaught | exact Hrejected].
Defined.

(** C6 at an id that was never stored, on the freshly created collection. *)
Lemma get_memory_witness :
  Reference.respond
    (Retrieve "semantic_memory" [get (Demo.id_args "no-such-id") "id"] true false)
    Demo.fresh
  = (inr [], Demo.fresh)
  /\ (exists res,
        Demo.run_tool "get_memory" (Some (Demo.id_args "no-such-id")) Demo.fresh
        = Run (inr res) Demo.fresh
              [Ev (Retrieve "semantic_memory"
                     [get (Demo.id_args "no-such-id") "id"] true false) (inr [])]
        /\ Server.isError res = None
        /\ res = Server.text_result
                   (obj [("success", VBool false);
                         ("message",
                          VStr ("Memory "
                                  +:+ ToString Demo.Number_toString
                                        (get (Demo.id_args "no-such-id") "id")
                                  +:+ " not found"))])
        /\ success_field res = Some false
        /\ envelope res None
             (obj [("success", VBool false);
                   ("message", VStr "Memory no-such-id not found")])).
Proof.
  assert (H : Reference.respond
                (Retrieve "semantic_memory"
                   [get (Demo.id_args "no-such-id") "id"] true false)
                Demo.fresh
              = (inr [], Demo.fresh)) by reflexivity.
  split; [exact H |].
  exact (get_memory_found_or_not Reference.respond Demo.Number_toString
           Demo.embeddingService Demo.qdrantService (Demo.id_args "no-such-id")
           Demo.fresh Demo.fresh [] H).
Defined.

(** C6 at the id of the stored memory: success true with its id and
    payload. *)
Lemma get_memory_found_example :
  answers (Demo.run_tool "get_memory" (Some (Demo.id_args "m-1")) Demo.one_memory)
    None
    (obj [("success", VBool true);
          ("memory",
           VObj (obj [("id", VStr "m-1");
                      ("payload",
                       VObj (obj [("content", VStr "Our API uses JWT");
                                  ("timestamp", VStr "2024-04-30T08:00:00.000Z");
                                  ("tags", VArr [VStr "auth"])]))]))]).
Proof. eexists. split; [reflexivity | split; reflexivity]. Qed.


(** The preview of a text of 101 accented letters is its first 100 letters
    and the three dots. *)
Lemma preview_of_long_accented_text :
  utf16_length Cases.long_accented = 101
  /\ truncated Cases.long_accented
     = String.concat EmptyString (replicate 100 "é") +:+ "...".
Proof. split; vm_compute; reflexivity. Qed.

(** C1 (as amended) on the store scenario of the spec: the record read back
    has the original content, the clock's timestamp and the caller's tags. *)
Lemma store_then_get_witness :
  exists id payload,
    get (body_of
           (Server.text_result
              (obj [("success", VBool true);
                    ("message", VStr "Memory stored successfully");
                    ("id", VStr Demo.first_id);
                    ("content", VStr "Our API uses JWT");
                    ("metadata", VObj (obj [("tags", VArr [VStr "auth"])]))])))
        "id"
    = VStr id
    /\ outcome
         (Demo.run_tool "get_memory" (Some (obj [("id", VStr id)]))
            (final (Demo.run_tool "store_memory" (Some Demo.jwt_args) Demo.fresh)))
       = inr (Server.text_result
                (obj [("success", VBool true);
                      ("memory",
                       VObj (obj [("id", VStr id);
                                  ("payload", VObj payload)]))]))
    /\ payload
       = spread (obj [("content", VStr "Our API uses JWT");
                      ("timestamp", VStr (Reference.clock Demo.fresh))])
                (with_default (get Demo.jwt_args "metadata") (VObj ∅))
    /\ (forall k v,
          own_props (with_default (get Demo.jwt_args "metadata") (VObj ∅)) !! k
          = Some v ->
          payload !! k = Some v)
    /\ is_Some (payload !! "timestamp")
    /\ (own_props (with_default (get Demo.jwt_args "metadata") (VObj ∅)) !! "content"
        = None ->
        payload !! "content" = Some (VStr "Our API uses JWT")).
Proof.
  refine (store_then_get_roundtrip Demo.Number_toString Demo.embeddingService
            Demo.qdrantService Demo.jwt_args "Our API uses JWT" Demo.fresh
            _ _ _ _);
    reflexivity.
Defined.

(** C1 as stated fails when the metadata has a key named content: the record
    read back under the returned id has the metadata's value as its content,
    not the content that was stored. *)
Lemma stored_content_overridden_by_metadata :
  outcome (Demo.run_tool "store_memory" (Some Demo.override_args) Demo.fresh)
  = inr (Server.text_result
           (obj [("success", VBool true);
                 ("message", VStr "Memory stored successfully");
                 ("id", VStr Demo.first_id);
                 ("content", VStr "original");
                 ("metadata", VObj (obj [("content", VStr "override")]))]))
  /\ outcome
       (Demo.run_tool "get_memory" (Some (Demo.id_args Demo.first_id))
          (final (Demo.run_tool "store_memory" (Some Demo.override_args) Demo.fresh)))
     = inr (Server.text_result
              (obj [("success", VBool true);
                    ("memory",
                     VObj (obj [("id", VStr Demo.first_id);
                                ("payload",
                                 VObj (obj [("content", VStr "override");
                                            ("timestamp",
                                             VStr "2024-05-01T12:00:00.000Z")]))]))]))
  /\ get (obj [("content", VStr "override");
              ("timestamp", VStr "2024-05-01T12:00:00.000Z")]) "content"
     <> VStr "original".
Proof.
  split; [vm_compute; reflexivity |].
  split; [vm_compute; reflexivity |].
  vm_compute. discriminate.
Qed.

(** C2 as stated fails for a truthy confirm other than true: with confirm 1
    the delete with the empty filter is issued, the response has success
    true, and the stored memory is gone.  It also fails when the request has
    no arguments record at all: nothing is deleted, but the response is the
    error-tagged one, not an ordinary one. *)
Lemma clear_all_runs_on_confirm_1 :
  get Demo.confirm_1_args "confirm" <> VBool true
  /\ Reference.stored <$> (Reference.store Demo.one_memory !! "semantic_memory")
     <> Some ∅
  /\ requests (trace (Demo.run_tool "clear_all_memories"
                        (Some Demo.confirm_1_args) Demo.one_memory))
     = [Delete "semantic_memory" true (ByFilter (VObj ∅))]
  /\ existsb is_delete_all
       (requests (trace (Demo.run_tool "clear_all_memories"
                           (Some Demo.confirm_1_args) Demo.one_memory)))
     = true
  /\ outcome (Demo.run_tool "clear_all_memories"
                (Some Demo.confirm_1_args) Demo.one_memory)
     = inr (Server.text_result
              (obj [("success", VBool true);
                    ("message", VStr "All memories have been deleted")]))
  /\ Reference.stored
       <$> (Reference.store
              (final (Demo.run_tool "clear_all_memories"
                        (Some Demo.confirm_1_args) Demo.one_memory))
            !! "semantic_memory")
     = Some ∅
  /\ Demo.run_tool "clear_all_memories" None Demo.one_memory
     = Run (inr {| Server.content :=
                     [{| Server.type := "text";
                         Server.text :=
                           JSON_stringify
                             (VObj (obj [("success", VBool false);
                                         ("error",
                                          VStr "Cannot destructure property 'confirm' of 'args' as it is undefined.")]))
                             2 |}];
                   Server.isError := Some true |})
           Demo.one_memory [].
Proof.
  split; [vm_compute; discriminate |].
  split; [vm_compute; discriminate |].
  repeat split; vm_compute; reflexivity.
Qed.

(** C3 as stated fails: store_memory called with an arguments object that
    lacks the required content is not rejected at the dispatch boundary; the
    embedding client is called, with input undefined. *)
Lemma missing_content_reaches_embedding_client :
  Server.required_fields "store_memory" = ["content"]
  /\ (∅ : gmap string value) !! "content" = None
  /\ requests (trace (Demo.run_tool "store_memory" (Some ∅) Demo.fresh))
     = [EmbeddingsCreate "text-embedding-3-large" VUndefined (inject_Z 1536);
        ConsoleError "Error generating embedding:"
          (Some (ErrorObject "400 Invalid input"))]
  /\ is_client_request
       (EmbeddingsCreate "text-embedding-3-large" VUndefined (inject_Z 1536))
     = true.
Proof. repeat split. Qed.

(** C3 (as amended) on the empty arguments object and on absent arguments. *)
Lemma required_fields_witness :
  head (requests (trace (Demo.run_tool "store_memory" (Some ∅) Demo.fresh)))
  = Some (EmbeddingsCreate "text-embedding-3-large" VUndefined (inject_Z 1536))
  /\ head (requests (trace (Demo.run_tool "search_memory" (Some ∅) Demo.fresh)))
     = Some (EmbeddingsCreate "text-embedding-3-large" VUndefined (inject_Z 1536))
  /\ head (requests (trace (Demo.run_tool "delete_memory" (Some ∅) Demo.fresh)))
     = Some (Delete "semantic_memory" true (ByPoints [VUndefined]))
  /\ head (requests (trace (Demo.run_tool "get_memory" (Some ∅) Demo.fresh)))
     = Some (Retrieve "semantic_memory" [VUndefined] true false)
  /\ Demo.run_tool "clear_all_memories" (Some ∅) Demo.one_memory
     = Run (inr (Server.text_result
                   (obj [("success", VBool false);
                         ("message",
                          VStr "You must confirm with confirm=true to delete all memories")])))
           Demo.one_memory []
  /\ Demo.run_tool "delete_memory" None Demo.one_memory
     = Run (inr (Server.error_result
                   "Cannot destructure property 'id' of 'args' as it is undefined."))
           Demo.one_memory [].
Proof.
  destruct (required_fields_are_not_checked Reference.respond
              Demo.Number_toString Demo.embeddingService Demo.qdrantService
              ∅ Demo.fresh) as (Hstore & Hsearch & Hid & _ & _).
  destruct (required_fields_are_not_checked Reference.respond
              Demo.Number_toString Demo.embeddingService Demo.qdrantService
              ∅ Demo.one_memory) as (_ & _ & _ & Hconfirm & Habsent & _).
  split; [exact (Hstore eq_refl) |].
  split; [exact (Hsearch eq_refl) |].
  split; [exact (proj1 (Hid eq_refl)) |].
  split; [exact (proj2 (Hid eq_refl)) |].
  split; [exact (Hconfirm eq_refl) |].
  exact (Habsent "delete_memory" "id" eq_refl).
Defined.

(** C8 on a query that supplies limit 3, threshold 0.9 and a filter, against
    the freshly created, empty collection: the three reach the store as
    supplied, and zero hits give success true with an empty list. *)
Lemma search_memory_witness :
  exists res,
    Demo.run_tool "search_memory" (Some Cases.tuned_query_args) Demo.fresh
    = Run (inr res) Demo.fresh
        [Ev (EmbeddingsCreate "text-embedding-3-large"
               (VStr "how are users authenticated") (inject_Z 1536))
            (inr {| data := [{| embedding := VArr [VNum (inject_Z 27)] |}] |});
         Ev (Search "semantic_memory" (VArr [VNum (inject_Z 27)])
               (VNum (inject_Z 3)) (VNum (9 # 10)) true
               (VObj (obj [("category", VStr "code")])))
            (inr [])]
    /\ envelope res None
         (obj [("success", VBool true);
               ("query", VStr "how are users authenticated");
               ("results_count", VNum (inject_Z 0));
               ("results", VArr [])])
    /\ success_field res = Some true.
Proof.
  destruct (search_memory_passes_parameters Reference.respond
              Demo.Number_toString Demo.embeddingService Demo.qdrantService
              Cases.tuned_query_args Demo.fresh) as [_ Hrun].
  exact (proj1 (Hrun {| data := [{| embedding := VArr [VNum (inject_Z 27)] |}] |}
                  {| embedding := VArr [VNum (inject_Z 27)] |}
                  Demo.fresh [] Demo.fresh eq_refl eq_refl eq_refl)).
Defined.

(** With limit, threshold and filter omitted the request carries 5, 0.7 and
    no filter. *)
Lemma search_memory_defaults_example :
  requests (trace (Demo.run_tool "search_memory" (Some Demo.query_args) Demo.fresh))
  = [EmbeddingsCreate "text-embedding-3-large"
       (VStr "how are users authenticated") (inject_Z 1536);
     Search "semantic_memory" (VArr [VNum (inject_Z 27)])
       (VNum (inject_Z 5)) (VNum (7 # 10)) true VUndefined].
Proof. reflexivity. Qed.

(** C9 on the state right after start-up (the collection exists) and on a
    state with no collection. *)
Lemma createCollection_witness :
  final (exec Reference.respond
           (QdrantService.createCollection Demo.qdrantService
              (VNum (inject_Z 3072))) Demo.fresh)
  = Demo.fresh
  /\ Reference.store
       (final (exec Reference.respond
                 (QdrantService.createCollection Demo.qdrantService
                    (VNum (inject_Z 3072))) Demo.blank))
     = <["semantic_memory" :=
           {| Reference.vectors_size :=
                with_default (VNum (inject_Z 3072)) (VNum (inject_Z 1536));
              Reference.vectors_distance := "Cosine";
              Reference.stored := ∅ |}]> (Reference.store Demo.blank).
Proof.
  destruct (createCollection_is_create_if_absent Demo.qdrantService
              (VNum (inject_Z 3072))) as (_ & Hpresent & Habsent & _).
  split.
  - exact (proj1 (proj2 (Hpresent Demo.fresh Demo.empty_collection eq_refl))).
  - exact (Habsent Demo.blank eq_refl).
Defined.

(** C10 on a state with one stored memory: the metadata of the listed and of
    the found item is the whole payload, content and timestamp included. *)
Lemma items_witness :
  (exists vector limit threshold filter results items,
     last (trace (Demo.run_tool "search_memory" (Some Demo.query_args) Demo.one_memory))
     = Some (Ev (Search "semantic_memory" vector limit threshold true filter)
                (inr results))
     /\ get (body_of
              (Server.text_result
                 (obj [("success", VBool true);
                       ("query", VStr "how are users authenticated");
                       ("results_count", VNum (inject_Z 1));
                       ("results",
                        VArr [VObj (obj [("id", VStr "m-1");
                                         ("score", VNum (inject_Z 1));
                                         ("content", VStr "Our API uses JWT");
                                         ("metadata",
                                          VObj (obj [("content", VStr "Our API uses JWT");
                                                     ("timestamp", VStr "2024-04-30T08:00:00.000Z");
                                                     ("tags", VArr [VStr "auth"])]))])])])))
            "results"
       = VArr items
     /\ items = map Server.format_result results
     /\ Forall2 (fun p item =>
                   item_of p item /\ opt_chain item "score" = pt_score p)
                results items)
  /\ (exists limit offset page items,
        trace (Demo.run_tool "list_memories" (Some ∅) Demo.one_memory)
        = [Ev (Scroll "semantic_memory" limit offset true false) (inr page)]
        /\ get (body_of
                 (Server.text_result
                    (obj [("success", VBool true);
                          ("count", VNum (inject_Z 1));
                          ("memories",
                           VArr [VObj (obj [("id", VStr "m-1");
                                            ("content", VStr "Our API uses JWT");
                                            ("timestamp", VStr "2024-04-30T08:00:00.000Z");
                                            ("metadata",
                                             VObj (obj [("content", VStr "Our API uses JWT");
                                                        ("timestamp", VStr "2024-04-30T08:00:00.000Z");
                                                        ("tags", VArr [VStr "auth"])]))])])])))
               "memories"
          = VArr items
        /\ items = map Server.format_memory (points page)
        /\ Forall2 (fun p item =>
                      item_of p item
                      /\ opt_chain item "timestamp"
                         = opt_chain (opt_chain item "metadata") "timestamp")
                   (points page) items).
Proof.
  destruct (items_carry_whole_payload Reference.respond Demo.Number_toString
              Demo.embeddingService Demo.qdrantService Demo.query_args
              Demo.one_memory) as [Hsearch _].
  destruct (items_carry_whole_payload Reference.respond Demo.Number_toString
              Demo.embeddingService Demo.qdrantService ∅
              Demo.one_memory) as [_ Hlist].
  split.
  - refine (Hsearch _ _ _); reflexivity.
  - refine (Hlist _ _ _); reflexivity.
Defined.

(* ===================================================================== *)
(** ** Further properties of the clients                                  *)
(* ===================================================================== *)

(** Case analysis on every answer of the environment [h] in the goal. *)
Ltac all_answers h :=
  repeat (simpl in *;
    match goal with
    | |- context [match data ?r with _ => _ end] => destruct (data r) eqn:?
    | |- context [Server.content_preview ?v] => destruct v eqn:?
    | |- context [if negb (to_boolean ?v) then _ else _] =>
        destruct (to_boolean v) eqn:?
    | |- context [match ?l with [] => None | _ :: _ => _ end] => destruct l
    | |- context [existsb ?f ?l] => destruct (existsb f l) eqn:?
    | |- context [h ?c ?w] => next_answer h
    end).

(** The same for the tools, whose code has no [some] test. *)
Ltac tool_answers h :=
  repeat (simpl in *;
    match goal with
    | |- context [match data ?r with _ => _ end] => destruct (data r) eqn:?
    | |- context [Server.content_preview ?v] => destruct v eqn:?
    | |- context [if negb (to_boolean ?v) then _ else _] =>
        destruct (to_boolean v) eqn:?
    | |- context [match ?l with [] => None | _ :: _ => _ end] => destruct l
    | |- context [h ?c ?w] => next_answer h
    end).

Ltac unit_answers :=
  repeat match goal with
  | a : unit |- _ => destruct a
  end.

Section Clients.

Context {W : Type} (h : env W).
Variable embeddingService : EmbeddingService.t.
Variable qdrantService : QdrantService.t.

Local Abbreviation collection := (QdrantService.collectionName qdrantService).
Local Abbreviation model := (EmbeddingService.model embeddingService).
Local Abbreviation dimensions := (EmbeddingService.dimensions embeddingService).

(** X1. generateEmbedding makes exactly one request to the provider, with
    the configured model and dimensions, and none to the store.  It returns
    a vector exactly when the provider answers with at least one item, and
    then the vector of the first item; in every other case it raises, and
    the last thing it did before raising was to log the raised exception. *)
Theorem generateEmbedding_single_request (text : value) (w : W) :
  List.filter is_client_request
    (requests (trace (exec h (EmbeddingService.generateEmbedding embeddingService text) w)))
  = [EmbeddingsCreate model text dimensions]
  /\ match outcome (exec h (EmbeddingService.generateEmbedding embeddingService text) w) with
     | inr vector =>
         exists resp d rest,
           (h (EmbeddingsCreate model text dimensions) w).1 = inr resp
           /\ data resp = d :: rest /\ vector = embedding d
     | inl e =>
         ((h (EmbeddingsCreate model text dimensions) w).1 = inl e
          \/ exists resp,
               (h (EmbeddingsCreate model text dimensions) w).1 = inr resp
               /\ data resp = [])
         /\ exists a,
              last (trace (exec h (EmbeddingService.generateEmbedding embeddingService text) w))
              = Some (Ev (ConsoleError "Error generating embedding:" (Some e)) a)
     end.
Proof.
  unfold EmbeddingService.generateEmbedding. simpl.
  destruct (h (EmbeddingsCreate model text dimensions) w) as [[e | resp] w1];
    simpl.
  - split; [reflexivity |]. split; [left; reflexivity |]. eexists. reflexivity.
  - destruct (data resp) as [| d rest] eqn:Hd; simpl.
    + split; [reflexivity |]. split; [right; exists resp; split; [reflexivity | exact Hd] |].
      eexists. reflexivity.
    + split; [reflexivity |]. exists resp, d, rest.
      split; [reflexivity |]. split; [exact Hd | reflexivity].
Qed.

(** X2. generateBatchEmbeddings sends all texts in one request, whatever
    their number.  When the provider answers, the result is the vectors of
    the answered items, one per item and in the provider's order; an answer
    with no item gives the empty list, not an exception.  When the provider
    rejects, the same exception is raised after being logged once. *)
Theorem generateBatchEmbeddings_one_call (texts : list string) (w : W) :
  requests (trace (exec h (EmbeddingService.generateBatchEmbeddings embeddingService texts) w))
  = EmbeddingsCreate model (VArr (VStr <$> texts)) dimensions
      :: match (h (EmbeddingsCreate model (VArr (VStr <$> texts)) dimensions) w).1 with
         | inr _ => []
         | inl e => [ConsoleError "Error generating batch embeddings:" (Some e)]
         end
  /\ outcome (exec h (EmbeddingService.generateBatchEmbeddings embeddingService texts) w)
     = match (h (EmbeddingsCreate model (VArr (VStr <$> texts)) dimensions) w).1 with
       | inr resp => inr (map embedding (data resp))
       | inl e => inl e
       end.
Proof.
  unfold EmbeddingService.generateBatchEmbeddings. simpl.
  destruct (h (EmbeddingsCreate model (VArr (VStr <$> texts)) dimensions) w)
    as [[e | resp] w1]; simpl.
  - repeat split.
  - repeat split.
Qed.

(** X3. No method of QdrantService swallows or retries a failure: in every
    run, a rejected client call is followed only by the method's own
    console.error of that exception, and that exception is what the method
    raises.  Every method makes exactly one client request, except
    createCollection, which makes one or two. *)
Theorem qdrant_methods_fail_loudly (w : W) (id : string)
    (vector limit threshold filter offset vectorSize anyId : value)
    (payload : gmap string value) :
  (fails_loudly (exec h (QdrantService.storeMemory qdrantService id vector payload) w)
   /\ client_requests (exec h (QdrantService.storeMemory qdrantService id vector payload) w) = 1)
  /\ (fails_loudly (exec h (QdrantService.searchSimilar qdrantService vector limit threshold filter) w)
      /\ client_requests (exec h (QdrantService.searchSimilar qdrantService vector limit threshold filter) w) = 1)
  /\ (fails_loudly (exec h (QdrantService.deleteMemory qdrantService anyId) w)
      /\ client_requests (exec h (QdrantService.deleteMemory qdrantService anyId) w) = 1)
  /\ (fails_loudly (exec h (QdrantService.getMemory qdrantService anyId) w)
      /\ client_requests (exec h (QdrantService.getMemory qdrantService anyId) w) = 1)
  /\ (fails_loudly (exec h (QdrantService.getCount qdrantService) w)
      /\ client_requests (exec h (QdrantService.getCount qdrantService) w) = 1)
  /\ (fails_loudly (exec h (QdrantService.listMemories qdrantService limit offset) w)
      /\ client_requests (exec h (QdrantService.listMemories qdrantService limit offset) w) = 1)
  /\ (fails_loudly (exec h (QdrantService.clearAllMemories qdrantService) w)
      /\ client_requests (exec h (QdrantService.clearAllMemories qdrantService) w) = 1)
  /\ (fails_loudly (exec h (QdrantService.getStats qdrantService) w)
      /\ client_requests (exec h (QdrantService.getStats qdrantService) w) = 1)
  /\ (fails_loudly (exec h (QdrantService.createCollection qdrantService vectorSize) w)
      /\ 1 <= client_requests (exec h (QdrantService.createCollection qdrantService vectorSize) w) <= 2).
Proof.
  unfold fails_loudly, client_requests,
    QdrantService.storeMemory, QdrantService.searchSimilar,
    QdrantService.deleteMemory, QdrantService.getMemory,
    QdrantService.getCount, QdrantService.listMemories,
    QdrantService.clearAllMemories, QdrantService.getStats,
    QdrantService.createCollection.
  repeat split; all_answers h; simpl; unit_answers;
    try lia; try reflexivity; try exact I;
    try (eexists; reflexivity); repeat constructor.
Qed.

(** X4. getCount never yields a missing count: when the store answers, the
    result is the answered points_count if that is truthy and the number 0
    otherwise (undefined, null or 0); when the store rejects, that exception
    is raised. *)
Theorem getCount_defaults_to_zero (w : W) :
  match (h (GetCollection collection) w).1,
        outcome (exec h (QdrantService.getCount qdrantService) w) with
  | inr info, inr count =>
      (to_boolean (points_count info) = true /\ count = points_count info)
      \/ (to_boolean (points_count info) = false /\ count = VNum (inject_Z 0))
  | inl e, inl e' => e' = e
  | _, _ => False
  end.
Proof.
  unfold QdrantService.getCount. simpl.
  destruct (h (GetCollection collection) w) as [[e | info] w1]; simpl;
    [reflexivity |].
  destruct (to_boolean (points_count info)) eqn:Hb; [left | right];
    split; reflexivity.
Qed.

End Clients.

(* ===================================================================== *)
(** ** Further properties of the tools                                    *)
(* ===================================================================== *)

(** The keys of the literal survive the spread. *)
Lemma spread_has_reserved (literal : gmap string value) (src : value)
    (k : string) :
  is_Some (literal !! k) -> is_Some (spread literal src !! k).
Proof.
  intros [x Hx]. unfold spread.
  destruct (own_props src !! k) as [v |] eqn:Hm.
  - exists v. apply lookup_union_Some_l. exact Hm.
  - exists x. rewrite (lookup_union_r _ _ _ Hm). exact Hx.
Qed.

Section Tools.

Context {W : Type} (h : env W).
Variable Number_toString : Q -> string.
Variable embeddingService : EmbeddingService.t.
Variable qdrantService : QdrantService.t.

Local Abbreviation callTool :=
  (Server.callTool Number_toString embeddingService qdrantService).
Local Abbreviation switch :=
  (Server.switch Number_toString embeddingService qdrantService).
Local Abbreviation collection := (QdrantService.collectionName qdrantService).
Local Abbreviation model := (EmbeddingService.model embeddingService).
Local Abbreviation dimensions := (EmbeddingService.dimensions embeddingService).

Ltac by_tool name :=
  unfold Server.callTool, Server.switch;
  repeat match goal with
  | |- context [String.eqb name ?s] =>
      destruct (String.eqb_spec name s) as [-> | ?]
  end.

(** X5. No tool retries or hides a failed client call: in every run of the
    dispatcher, a rejected call to the provider or to the store is followed
    by exactly one console.error of that exception and by no further
    request, and a tool call makes at most two client requests. *)
Theorem tools_stop_at_first_rejection (name : string)
    (args : option (gmap string value)) (w : W) :
  stops_at_rejection (trace (exec h (callTool name args) w))
  /\ client_requests (exec h (callTool name args) w) <= 2.
Proof.
  unfold client_requests, Server.callTool, Server.switch.
  repeat match goal with
  | |- context [String.eqb name ?s] => destruct (String.eqb name s)
  end;
  try (destruct args as [o |]);
  (split; all_answers h; simpl; unit_answers;
   try lia; try exact I; try (eexists; reflexivity)).
Qed.

(** X6. Which tool can reach which client: only store_memory and
    search_memory call the embedding provider; only store_memory,
    delete_memory and clear_all_memories send a request that changes the
    store, so search_memory, get_memory, list_memories and get_stats are
    read-only; only clear_all_memories deletes by filter; and no tool lists
    or creates collections. *)
Theorem tools_reach_only_their_clients (name : string)
    (args : option (gmap string value)) (w : W) :
  (existsb is_embedding_request (requests (trace (exec h (callTool name args) w))) = true ->
   name = "store_memory" \/ name = "search_memory")
  /\ (existsb is_mutation (requests (trace (exec h (callTool name args) w))) = true ->
      name = "store_memory" \/ name = "delete_memory" \/ name = "clear_all_memories")
  /\ (existsb is_delete_all (requests (trace (exec h (callTool name args) w))) = true ->
      name = "clear_all_memories")
  /\ existsb is_collection_admin (requests (trace (exec h (callTool name args) w))) = false.
Proof.
  by_tool name; try (destruct args as [o |]);
    (split; [| split; [| split]]); tool_answers h; simpl;
    try reflexivity; try discriminate; intros _; auto.
Qed.

(** X7. The catalogue and the switch agree: the seven advertised names are
    pairwise distinct, and a name falls to the default branch of the switch
    (the unknown-tool error) exactly when the tools/list handler does not
    advertise it. *)
Theorem catalogue_matches_switch (name : string)
    (args : option (gmap string value)) :
  NoDup (Server.name <$> Server.listTools)
  /\ (switch name args = Throw (ErrorObject ("Unknown tool: " +:+ name))
      <-> name ∉ (Server.name <$> Server.listTools)).
Proof.
  split.
  - apply (bool_decide_unpack _). vm_compute. exact I.
  - change (Server.name <$> Server.listTools) with Server.tool_names.
    split.
    + unfold Server.switch.
      repeat match goal with
      | |- context [String.eqb name ?s] =>
          destruct (String.eqb_spec name s) as [-> | ?]
      end; try (destruct args as [o |]); simpl;
        try (destruct (to_boolean (get o "confirm"))); try discriminate;
        try (intros Heq; exfalso; vm_compute in Heq; discriminate Heq).
      all: intros _ Hin.
      all: cbv [Server.tool_names Server.tools map Server.name] in Hin.
      all: repeat (apply elem_of_cons in Hin as [-> | Hin]; [congruence |]).
      all: apply elem_of_nil in Hin; exact Hin.
    + intros Hn. unfold Server.switch.
      rewrite !(not_a_tool name)
        by (assumption
            || (cbv [Server.tool_names Server.tools map Server.name]; set_solver)).
      reflexivity.
Qed.

(** X8. Every upsert that store_memory sends, whatever the arguments and
    whatever the clients answer, is a single waited-for point in the
    configured collection.  The keys of its payload are content, timestamp
    and the property names of the supplied metadata; each metadata property
    has the metadata's value; unless the metadata overrides them, content is
    the content argument as supplied (undefined when the argument is
    missing) and timestamp is a string.  store_memory sends at most one
    store-changing request. *)
Theorem store_memory_payload_shape (o : gmap string value) (w : W) :
  Forall (well_formed_upsert collection
            (argument_or o "content" VUndefined)
            (argument_or o "metadata" (VObj ∅)))
         (requests (trace (exec h (callTool "store_memory" (Some o)) w)))
  /\ length (List.filter is_mutation
               (requests (trace (exec h (callTool "store_memory" (Some o)) w))))
     <= 1.
Proof.
  rewrite <- argument_or_get, <- argument_or_default.
  run_handler. split; tool_answers h; simpl; try lia;
    repeat (constructor; try exact I);
    simpl; repeat split.
  all: try (intros k v Hk; apply lookup_union_Some_l; exact Hk).
  all: try (unfold spread, obj; rewrite dom_union_L; simpl;
            rewrite !dom_insert_L, dom_empty_L; set_solver).
  all: intros Hnone; unfold spread; rewrite (lookup_union_r _ _ _ Hnone);
    first [reflexivity | eexists; reflexivity].
Qed.

(** X9. store_memory builds its response only after the upsert: when the
    content is not a string and both clients accept the call, the record is
    written (the upsert is answered) and the response is nevertheless the
    error-tagged one, with the TypeError of content.substring. *)
Theorem store_memory_stores_before_failing (o : gmap string value) (w w1 w2 w3 w4 : W)
    (resp : CreateEmbeddingResponse) (d : Embedding) (id now : string) :
  Reference.is_string (get o "content") = false ->
  h (EmbeddingsCreate model (get o "content") dimensions) w = (inr resp, w1) ->
  head (data resp) = Some d ->
  h UuidV4 w1 = (id, w2) ->
  h DateNowISO w2 = (now, w3) ->
  h (Upsert collection true
       [{| ps_id := id; ps_vector := embedding d;
           ps_payload :=
             spread (obj [("content", get o "content"); ("timestamp", VStr now)])
                    (with_default (get o "metadata") (VObj ∅)) |}]) w3
  = (inr tt, w4) ->
  exists msg,
    exec h (callTool "store_memory" (Some o)) w
    = Run (inr (Server.error_result msg)) w4
          [Ev (EmbeddingsCreate model (get o "content") dimensions) (inr resp);
           Ev UuidV4 id;
           Ev DateNowISO now;
           Ev (Upsert collection true
                 [{| ps_id := id; ps_vector := embedding d;
                     ps_payload :=
                       spread (obj [("content", get o "content");
                                    ("timestamp", VStr now)])
                              (with_default (get o "metadata") (VObj ∅)) |}])
              (inr tt)]
    /\ answers (exec h (callTool "store_memory" (Some o)) w) (Some true)
         (obj [("success", VBool false); ("error", VStr msg)]).
Proof.
  intros Hs He Hd Hid Hnow Hup. run_handler. rewrite He. simpl.
  destruct (data resp) as [| d' ds]; [discriminate |]. injection Hd as ->.
  simpl. rewrite Hid. simpl. rewrite Hnow. simpl. rewrite Hup. simpl.
  destruct (get o "content"); try discriminate Hs;
    (eexists; split;
     [reflexivity | eexists; split; [reflexivity | split; reflexivity]]).
Qed.

(** X10. list_memories asks the store for one page with the caller's limit
    (10 when omitted) and offset (none when omitted).  Its response has
    exactly the fields success, count and memories, where count is the
    number of listed memories: the cursor to the next page that the store
    answers with is not passed on. *)
Theorem list_memories_drops_the_cursor (o : gmap string value) (w w1 : W)
    (page : ScrollResponse) :
  h (Scroll collection (with_default (get o "limit") (VNum (inject_Z 10)))
       (get o "offset") true false) w = (inr page, w1) ->
  exists body,
    exec h (callTool "list_memories" (Some o)) w
    = Run (inr (Server.text_result body)) w1
          [Ev (Scroll collection (with_default (get o "limit") (VNum (inject_Z 10)))
                 (get o "offset") true false) (inr page)]
    /\ dom body = {[ "success"; "count"; "memories" ]}
    /\ body !! "success" = Some (VBool true)
    /\ body !! "count" = Some (Server.length_number (points page))
    /\ body !! "memories" = Some (VArr (map Server.format_memory (points page)))
    /\ answers (exec h (callTool "list_memories" (Some o)) w) None body
    /\ body !! "count"
       = Some (VNum (inject_Z (Z.of_nat (length (points page))))).
Proof.
  intros Hs. run_handler. rewrite !with_default_idem, Hs. simpl.
  eexists. split; [reflexivity |].
  split; [| split; [reflexivity | split; [| split; [reflexivity | split]]]].
  - unfold obj. simpl. rewrite !dom_insert_L, dom_empty_L. set_solver.
  - unfold Server.length_number. rewrite length_map. reflexivity.
  - eexists. split; [reflexivity | split; reflexivity].
  - unfold Server.length_number. rewrite length_map. reflexivity.
Qed.

(** X11. get_stats does not read its arguments: the run is the same for any
    arguments, present or absent.  When the store answers, the response has
    success true, the stats object with the configured collection name and
    the four figures as answered, and the configured embedding model and
    dimensions. *)
Theorem get_stats_ignores_arguments (args : option (gmap string value)) (w : W) :
  exec h (callTool "get_stats" args) w = exec h (callTool "get_stats" None) w
  /\ match (h (GetCollection collection) w).1 with
     | inr info =>
         outcome (exec h (callTool "get_stats" args) w)
         = inr (Server.text_result
                  (obj [("success", VBool true);
                        ("stats",
                         VObj (obj [("name", VStr collection);
                                    ("points_count", points_count info);
                                    ("indexed_vectors_count", indexed_vectors_count info);
                                    ("segments_count", segments_count info);
                                    ("status", status info)]));
                        ("embedding_model", VStr model);
                        ("embedding_dimensions", VNum dimensions)]))
     | inl e =>
         outcome (exec h (callTool "get_stats" args) w)
         = inr (Server.error_result (errorMessage Number_toString e))
     end
  /\ match (h (GetCollection collection) w).1 with
     | inr info =>
         answers (exec h (callTool "get_stats" args) w) None
           (obj [("success", VBool true);
                 ("stats",
                  VObj (obj [("name", VStr collection);
                             ("points_count", points_count info);
                             ("indexed_vectors_count", indexed_vectors_count info);
                             ("segments_count", segments_count info);
                             ("status", status info)]));
                 ("embedding_model", VStr model);
                 ("embedding_dimensions", VNum dimensions)])
     | inl e =>
         answers (exec h (callTool "get_stats" args) w) (Some true)
           (obj [("success", VBool false);
                 ("error", VStr (message_of Number_toString e))])
     end.
Proof.
  split; [reflexivity |]. run_handler.
  destruct (h (GetCollection collection) w) as [[e | info] w1];
    (split; [reflexivity |]); eexists; (split; [reflexivity |]).
  - apply error_result_envelope.
  - apply text_result_envelope.
Qed.

(** X12. The defaults the catalogue advertises are the ones applied: when
    limit and threshold are omitted, every search request of search_memory
    carries the advertised limit and threshold, and every scroll request of
    list_memories the advertised limit. *)
Theorem omitted_arguments_take_advertised_defaults (o : gmap string value) (w : W) :
  o !! "limit" = None ->
  o !! "threshold" = None ->
  Forall uses_schema_defaults
         (requests (trace (exec h (callTool "search_memory" (Some o)) w)))
  /\ Forall uses_schema_defaults
            (requests (trace (exec h (callTool "list_memories" (Some o)) w))).
Proof.
  intros Hl Ht. run_handler. unfold get. rewrite Hl, Ht. simpl.
  split; tool_answers h; simpl; repeat constructor.
Qed.

(** X13. delete_memory sends one delete for the given id and nothing else:
    it does not look the record up first, and whenever the store accepts the
    delete the response has success true and names the id, whether or not
    a record existed. *)
Theorem delete_memory_reports_store_answer (o : gmap string value) (w : W) :
  requests (trace (exec h (callTool "delete_memory" (Some o)) w))
  = Delete collection true (ByPoints [get o "id"])
      :: match (h (Delete collection true (ByPoints [get o "id"])) w).1 with
         | inr _ => []
         | inl e => [ConsoleError "Error deleting memory:" (Some e)]
         end
  /\ outcome (exec h (callTool "delete_memory" (Some o)) w)
     = match (h (Delete collection true (ByPoints [get o "id"])) w).1 with
       | inr _ =>
           inr (Server.text_result
                  (obj [("success", VBool true);
                        ("message",
                         VStr ("Memory " +:+ ToString Number_toString (get o "id")
                                 +:+ " deleted successfully"))]))
       | inl e => inr (Server.error_result (errorMessage Number_toString e))
       end
  /\ match (h (Delete collection true (ByPoints [get o "id"])) w).1 with
     | inr _ =>
         answers (exec h (callTool "delete_memory" (Some o)) w) None
           (obj [("success", VBool true);
                 ("message",
                  VStr ("Memory " +:+ ToString Number_toString (get o "id")
                          +:+ " deleted successfully"))])
     | inl e =>
         answers (exec h (callTool "delete_memory" (Some o)) w) (Some true)
           (obj [("success", VBool false);
                 ("error", VStr (message_of Number_toString e))])
     end.
Proof.
  run_handler.
  destruct (h (Delete collection true (ByPoints [get o "id"])) w)
    as [[e | u] w1];
    (split; [reflexivity |]); (split; [reflexivity |]);
    eexists; (split; [reflexivity |]).
  - apply error_result_envelope.
  - apply text_result_envelope.
Qed.

End Tools.


(* ===================================================================== *)
(** ** How the tools compose, against the reference environment          *)
(* ===================================================================== *)

Section Composition.

Variable Number_toString : Q -> string.
Variable embeddingService : EmbeddingService.t.
Variable qdrantService : QdrantService.t.

Local Abbreviation callTool :=
  (Server.callTool Number_toString embeddingService qdrantService).
Local Abbreviation collection := (QdrantService.collectionName qdrantService).
Local Abbreviation tool name args w :=
  (exec Reference.respond (callTool name args) w).

Lemma with_stored_same (col : Reference.Collection) :
  Reference.with_stored col (Reference.stored col) = col.
Proof. destruct col; reflexivity. Qed.

Lemma with_store_same (w : Reference.World) :
  Reference.with_store w (Reference.store w) = w.
Proof. destruct w; reflexivity. Qed.

(** get_memory against the reference store. *)
Lemma get_memory_reference (w : Reference.World) (col : Reference.Collection)
    (id : string) :
  Reference.store w !! collection = Some col ->
  tool "get_memory" (Some (obj [("id", VStr id)])) w
  = Run (inr (Server.text_result
                match Reference.stored col !! id with
                | None =>
                    obj [("success", VBool false);
                         ("message", VStr ("Memory " +:+ id +:+ " not found"))]
                | Some sp =>
                    obj [("success", VBool true);
                         ("memory",
                          VObj (obj [("id", VStr id);
                                     ("payload", VObj (Reference.sp_payload sp))]))]
                end))
        w
        [Ev (Retrieve collection [VStr id] true false)
            (inr (match Reference.stored col !! id with
                  | None => []
                  | Some sp => [Reference.to_point (id, sp)]
                  end))].
Proof.
  intros Hcol.
  assert (Hret : Reference.respond (Retrieve collection [VStr id] true false) w
                 = (inr (match Reference.stored col !! id with
                         | None => []
                         | Some sp => [Reference.to_point (id, sp)]
                         end), w)).
  { cbn [Reference.respond]. unfold Reference.on_collection. rewrite Hcol.
    cbn [forallb Reference.is_string andb omap list_omap Reference.lookup_point].
    destruct (Reference.stored col !! id); reflexivity. }
  rewrite (get_memory_run Reference.respond Number_toString embeddingService
             qdrantService (obj [("id", VStr id)]) _ _ _ Hret).
  destruct (Reference.stored col !! id); reflexivity.
Qed.

(** delete_memory against the reference store. *)
Lemma delete_memory_reference (w : Reference.World) (col : Reference.Collection)
    (id : string) :
  Reference.store w !! collection = Some col ->
  tool "delete_memory" (Some (obj [("id", VStr id)])) w
  = Run (inr (Server.text_result
                (obj [("success", VBool true);
                      ("message",
                       VStr ("Memory " +:+ id +:+ " deleted successfully"))])))
        (Reference.with_store w
           (<[collection :=
                Reference.with_stored col (delete id (Reference.stored col))]>
              (Reference.store w)))
        [Ev (Delete collection true (ByPoints [VStr id])) (inr tt)].
Proof.
  intros Hcol. run_handler.
  change (get (obj [("id", VStr id)]) "id") with (VStr id).
  unfold Reference.on_collection. rewrite Hcol. reflexivity.
Qed.

(** X15. Against the reference store, delete_memory answers success true
    for any id, stored or not.  Afterwards get_memory with that id answers
    not found, get_memory with any other id answers as it did before, and
    deleting an id that was not stored leaves the store exactly as it
    was. *)
Theorem delete_then_get_is_not_found (w : Reference.World)
    (col : Reference.Collection) (id : string) :
  Reference.store w !! collection = Some col ->
  outcome (tool "delete_memory" (Some (obj [("id", VStr id)])) w)
  = inr (Server.text_result
           (obj [("success", VBool true);
                 ("message", VStr ("Memory " +:+ id +:+ " deleted successfully"))]))
  /\ outcome (tool "get_memory" (Some (obj [("id", VStr id)]))
                (final (tool "delete_memory" (Some (obj [("id", VStr id)])) w)))
     = inr (Server.text_result
              (obj [("success", VBool false);
                    ("message", VStr ("Memory " +:+ id +:+ " not found"))]))
  /\ (forall other,
        other <> id ->
        outcome (tool "get_memory" (Some (obj [("id", VStr other)]))
                   (final (tool "delete_memory" (Some (obj [("id", VStr id)])) w)))
        = outcome (tool "get_memory" (Some (obj [("id", VStr other)])) w))
  /\ (Reference.stored col !! id = None ->
      final (tool "delete_memory" (Some (obj [("id", VStr id)])) w) = w)
  /\ answers (tool "delete_memory" (Some (obj [("id", VStr id)])) w) None
       (obj [("success", VBool true);
             ("message", VStr ("Memory " +:+ id +:+ " deleted successfully"))])
  /\ answers (tool "get_memory" (Some (obj [("id", VStr id)]))
                (final (tool "delete_memory" (Some (obj [("id", VStr id)])) w)))
       None
       (obj [("success", VBool false);
             ("message", VStr ("Memory " +:+ id +:+ " not found"))]).
Proof.
  intros Hcol. rewrite (delete_memory_reference w col id Hcol). cbn [outcome final].
  split; [reflexivity |]. split; [| split; [| split; [| split]]].
  - erewrite get_memory_reference
      by (cbn [Reference.store Reference.with_store]; apply lookup_insert_eq).
    cbn [outcome Reference.stored Reference.with_stored].
    rewrite lookup_delete_eq. reflexivity.
  - intros other Hne.
    erewrite get_memory_reference
      by (cbn [Reference.store Reference.with_store]; apply lookup_insert_eq).
    rewrite (get_memory_reference w col other Hcol).
    cbn [outcome Reference.stored Reference.with_stored].
    rewrite lookup_delete_ne by congruence. reflexivity.
  - intros Hnone. rewrite delete_id by exact Hnone.
    rewrite with_stored_same, insert_id by exact Hcol.
    apply with_store_same.
  - eexists. split; [reflexivity |]. apply text_result_envelope.
  - erewrite get_memory_reference
      by (cbn [Reference.store Reference.with_store]; apply lookup_insert_eq).
    cbn [Reference.stored Reference.with_stored].
    rewrite lookup_delete_eq.
    eexists. split; [reflexivity |]. apply text_result_envelope.
Qed.

(** The empty filter selects every record of the reference store. *)
Lemma clear_filter_empties (w : Reference.World)
    (m : gmap string Reference.StoredPoint) :
  filter (fun e : string * Reference.StoredPoint =>
            Reference.selected w (VObj ∅) e.2 = false) m = ∅.
Proof.
  apply map_eq. intros i. rewrite lookup_empty.
  apply map_lookup_filter_None_2. right. intros x _. discriminate.
Qed.

(** clear_all_memories, confirmed, against the reference store. *)
Lemma clear_all_reference (w : Reference.World) (col : Reference.Collection)
    (o : gmap string value) :
  Reference.store w !! collection = Some col ->
  to_boolean (get o "confirm") = true ->
  tool "clear_all_memories" (Some o) w
  = Run (inr (Server.text_result
                (obj [("success", VBool true);
                      ("message", VStr "All memories have been deleted")])))
        (Reference.with_store w
           (<[collection := Reference.with_stored col ∅]> (Reference.store w)))
        [Ev (Delete collection true (ByFilter (VObj ∅))) (inr tt)].
Proof.
  intros Hcol Hc. run_handler. rewrite Hc. simpl.
  unfold Reference.on_collection. rewrite Hcol. simpl.
  rewrite clear_filter_empties. reflexivity.
Qed.

(** X16. Against the reference store, after a confirmed clear_all_memories
    the collection still exists with its vector parameters and holds no
    record: get_stats reports points_count 0, list_memories returns count 0
    and no memories, and get_memory answers not found for every id. *)
Theorem clear_all_then_empty (w : Reference.World) (col : Reference.Collection)
    (o : gmap string value) (id : string) :
  Reference.store w !! collection = Some col ->
  to_boolean (get o "confirm") = true ->
  Reference.store (final (tool "clear_all_memories" (Some o) w)) !! collection
  = Some {| Reference.vectors_size := Reference.vectors_size col;
            Reference.vectors_distance := Reference.vectors_distance col;
            Reference.stored := ∅ |}
  /\ get (body_of_stats
            (outcome (tool "get_stats" None
                        (final (tool "clear_all_memories" (Some o) w)))))
         "points_count"
     = VNum (inject_Z 0)
  /\ outcome (tool "list_memories" (Some ∅)
                (final (tool "clear_all_memories" (Some o) w)))
     = inr (Server.text_result
              (obj [("success", VBool true);
                    ("count", VNum (inject_Z 0));
                    ("memories", VArr [])]))
  /\ outcome (tool "get_memory" (Some (obj [("id", VStr id)]))
                (final (tool "clear_all_memories" (Some o) w)))
     = inr (Server.text_result
              (obj [("success", VBool false);
                    ("message", VStr ("Memory " +:+ id +:+ " not found"))]))
  /\ answers (tool "clear_all_memories" (Some o) w) None
       (obj [("success", VBool true);
             ("message", VStr "All memories have been deleted")])
  /\ answers (tool "list_memories" (Some ∅)
                (final (tool "clear_all_memories" (Some o) w)))
       None
       (obj [("success", VBool true);
             ("count", VNum (inject_Z 0));
             ("memories", VArr [])])
  /\ answers (tool "get_memory" (Some (obj [("id", VStr id)]))
                (final (tool "clear_all_memories" (Some o) w)))
       None
       (obj [("success", VBool false);
             ("message", VStr ("Memory " +:+ id +:+ " not found"))]).
Proof.
  intros Hcol Hc.
  assert (Hclear : answers (tool "clear_all_memories" (Some o) w) None
            (obj [("success", VBool true);
                  ("message", VStr "All memories have been deleted")])).
  { rewrite (clear_all_reference w col o Hcol Hc).
    eexists. split; [reflexivity |]. apply text_result_envelope. }
  revert Hclear.
  rewrite (clear_all_reference w col o Hcol Hc). cbn [final]. intros Hclear.
  assert (Hcol' :
    Reference.store
      (Reference.with_store w
         (<[collection := Reference.with_stored col ∅]> (Reference.store w)))
    !! collection = Some (Reference.with_stored col ∅))
    by (cbn [Reference.store Reference.with_store]; apply lookup_insert_eq).
  split; [exact Hcol' |]. split; [| split; [| split; [| split; [| split]]]].
  - run_handler. unfold Reference.on_collection. rewrite Hcol'. reflexivity.
  - run_handler. unfold Reference.on_collection. rewrite Hcol'. reflexivity.
  - rewrite (get_memory_reference _ _ id Hcol'). reflexivity.
  - exact Hclear.
  - run_handler. unfold Reference.on_collection. rewrite Hcol'.
    eexists. split; [reflexivity |]. split; reflexivity.
  - rewrite (get_memory_reference _ _ id Hcol').
    eexists. split; [reflexivity |]. apply text_result_envelope.
Qed.

(** X17. Against the reference store, a successful store_memory adds the
    record under the minted id and touches nothing else: get_memory with
    any other id answers exactly as it did before the store. *)
Theorem store_memory_keeps_other_records (o : gmap string value) (s : string)
    (w : Reference.World) (res : Server.CallToolResult) (other : string) :
  o !! "content" = Some (VStr s) ->
  outcome (tool "store_memory" (Some o) w) = inr res ->
  Server.isError res = None ->
  other <> Reference.next_id w ->
  get (body_of res) "id" = VStr (Reference.next_id w)
  /\ outcome (tool "get_memory" (Some (obj [("id", VStr other)]))
                (final (tool "store_memory" (Some o) w)))
     = outcome (tool "get_memory" (Some (obj [("id", VStr other)])) w).
Proof.
  intros Hc Hout Hne Hother.
  destruct (store_memory_success Reference.respond Number_toString
              embeddingService qdrantService o s w res Hc Hout Hne)
    as (id & now & resp & d & w1 & w2 & w3 & w4
        & He & Hd & Hid & Hnow & Hup & Hrun & ->).
  simpl in He, Hid, Hnow.
  injection He as He <-. injection Hid as <- <-. injection Hnow as <- <-.
  cbn [Reference.respond] in Hup. unfold Reference.on_collection in Hup.
  cbn [Reference.store Reference.after_id] in Hup.
  destruct (Reference.store w !! collection) as [col |] eqn:Hcol;
    [| discriminate].
  injection Hup as <-.
  split; [reflexivity |].
  rewrite Hrun. cbn [final].
  erewrite get_memory_reference
    by (cbn [Reference.store Reference.with_store]; apply lookup_insert_eq).
  rewrite (get_memory_reference w col other Hcol).
  cbn [outcome Reference.stored Reference.with_stored foldl ps_id ps_vector ps_payload].
  rewrite lookup_insert_ne by congruence. reflexivity.
Qed.

End Composition.


(* ===================================================================== *)
(** ** Further concrete runs                                              *)
(* ===================================================================== *)

(** X6 on a search against the fresh collection: the embedding provider is
    reached, and the tool is one of the two allowed to. *)
Lemma tools_reach_witness :
  existsb is_embedding_request
    (requests (trace (Demo.run_tool "search_memory" (Some Demo.query_args) Demo.fresh)))
  = true
  /\ ("search_memory" = "store_memory" \/ "search_memory" = "search_memory").
Proof.
  split; [reflexivity |].
  exact (proj1 (tools_reach_only_their_clients Reference.respond
                  Demo.Number_toString Demo.embeddingService Demo.qdrantService
                  "search_memory" (Some Demo.query_args) Demo.fresh) eq_refl).
Defined.

(** X7 at the name "frobnicate", which the catalogue does not advertise. *)
Lemma catalogue_witness :
  ("frobnicate" ∉ (Server.name <$> Server.listTools))
  /\ Server.switch Demo.Number_toString Demo.embeddingService Demo.qdrantService
       "frobnicate" None
     = Throw (ErrorObject ("Unknown tool: " +:+ "frobnicate")).
Proof.
  assert (Hn : "frobnicate" ∉ (Server.name <$> Server.listTools)).
  { apply (bool_decide_unpack _). vm_compute. exact I. }
  split; [exact Hn |].
  exact (proj2 (proj2 (catalogue_matches_switch Demo.Number_toString
                         Demo.embeddingService Demo.qdrantService
                         "frobnicate" None)) Hn).
Defined.

(** X9 with the number 42 as content and a provider that accepts it: the
    record is in the store and the response is the error-tagged one. *)
Lemma stores_before_failing_witness :
  exists msg,
    outcome (exec Reference.respond
               (Demo.callTool "store_memory" (Some Cases.number_args)) Cases.lenient)
    = inr (Server.error_result msg)
    /\ answers (exec Reference.respond
                  (Demo.callTool "store_memory" (Some Cases.number_args))
                  Cases.lenient)
         (Some true) (obj [("success", VBool false); ("error", VStr msg)])
    /\ Reference.stored
         <$> (Reference.store
                (final (exec Reference.respond
                          (Demo.callTool "store_memory" (Some Cases.number_args))
                          Cases.lenient))
              !! "semantic_memory")
       = Some {[ Demo.first_id :=
                   {| Reference.sp_vector := VArr [VNum (inject_Z 0)];
                      Reference.sp_payload :=
                        obj [("content", VNum (inject_Z 42));
                             ("timestamp", VStr "2024-05-01T12:00:00.000Z")] |} ]}.
Proof.
  edestruct (store_memory_stores_before_failing Reference.respond
               Demo.Number_toString Demo.embeddingService Demo.qdrantService
               Cases.number_args Cases.lenient) as [msg [Hmsg Hans]];
    [reflexivity | reflexivity | reflexivity | reflexivity | reflexivity
    | reflexivity |].
  exists msg. split; [| split; [exact Hans |]];
    unfold Demo.callTool; rewrite Hmsg; reflexivity.
Defined.

(** X10 on the state with one memory. *)
Lemma list_memories_witness :
  exists body,
    Demo.run_tool "list_memories" (Some ∅) Demo.one_memory
    = Run (inr (Server.text_result body)) Demo.one_memory
          [Ev (Scroll "semantic_memory" (VNum (inject_Z 10)) VUndefined true false)
              (inr {| points :=
                        [Reference.to_point
                           ("m-1",
                            {| Reference.sp_vector := VArr [];
                               Reference.sp_payload :=
                                 obj [("content", VStr "Our API uses JWT");
                                      ("timestamp", VStr "2024-04-30T08:00:00.000Z");
                                      ("tags", VArr [VStr "auth"])] |})];
                      next_page_offset := VNull |})]
    /\ dom body = {[ "success"; "count"; "memories" ]}
    /\ body !! "success" = Some (VBool true)
    /\ body !! "count" = Some (VNum (inject_Z 1))
    /\ answers (Demo.run_tool "list_memories" (Some ∅) Demo.one_memory) None body.
Proof.
  edestruct (list_memories_drops_the_cursor Reference.respond
               Demo.Number_toString Demo.embeddingService Demo.qdrantService
               ∅ Demo.one_memory) as (body & Hrun & Hdom & Hs & _ & _ & Hans & Hc);
    [reflexivity |].
  exists body. split; [exact Hrun |]. split; [exact Hdom |].
  split; [exact Hs |]. split; [exact Hc | exact Hans].
Defined.

(** X12 on a query that gives neither limit nor threshold. *)
Lemma advertised_defaults_witness :
  Forall uses_schema_defaults
         (requests (trace (Demo.run_tool "search_memory" (Some Demo.query_args)
                             Demo.one_memory)))
  /\ Forall uses_schema_defaults
            (requests (trace (Demo.run_tool "list_memories" (Some Demo.query_args)
                                Demo.one_memory))).
Proof.
  exact (omitted_arguments_take_advertised_defaults Reference.respond
           Demo.Number_toString Demo.embeddingService Demo.qdrantService
           Demo.query_args Demo.one_memory eq_refl eq_refl).
Defined.

(** X15 on the stored memory "m-1" and on an id that is not stored. *)
Lemma delete_then_get_witness :
  outcome (Demo.run_tool "get_memory" (Some (obj [("id", VStr "m-1")]))
             (final (Demo.run_tool "delete_memory" (Some (obj [("id", VStr "m-1")]))
                       Demo.one_memory)))
  = inr (Server.text_result
           (obj [("success", VBool false);
                 ("message", VStr ("Memory " +:+ "m-1" +:+ " not found"))]))
  /\ final (Demo.run_tool "delete_memory" (Some (obj [("id", VStr "m-2")]))
              Demo.one_memory)
     = Demo.one_memory
  /\ answers (Demo.run_tool "get_memory" (Some (obj [("id", VStr "m-1")]))
                (final (Demo.run_tool "delete_memory"
                          (Some (obj [("id", VStr "m-1")])) Demo.one_memory)))
       None
       (obj [("success", VBool false);
             ("message", VStr "Memory m-1 not found")]).
Proof.
  destruct (delete_then_get_is_not_found Demo.Number_toString
              Demo.embeddingService Demo.qdrantService
              Demo.one_memory Cases.jwt_collection "m-1" eq_refl)
    as (_ & Hget & _ & _ & _ & Hans).
  destruct (delete_then_get_is_not_found Demo.Number_toString
              Demo.embeddingService Demo.qdrantService
              Demo.one_memory Cases.jwt_collection "m-2" eq_refl)
    as (_ & _ & _ & Hsame & _).
  split; [exact Hget |]. split; [exact (Hsame eq_refl) | exact Hans].
Defined.

(** X16 on the state with one memory, cleared with confirm true. *)
Lemma clear_all_then_empty_witness :
  get (body_of_stats
         (outcome (Demo.run_tool "get_stats" None
                     (final (Demo.run_tool "clear_all_memories"
                               (Some (obj [("confirm", VBool true)]))
                               Demo.one_memory)))))
      "points_count"
  = VNum (inject_Z 0)
  /\ outcome (Demo.run_tool "get_memory" (Some (obj [("id", VStr "m-1")]))
                (final (Demo.run_tool "clear_all_memories"
                          (Some (obj [("confirm", VBool true)])) Demo.one_memory)))
     = inr (Server.text_result
              (obj [("success", VBool false);
                    ("message", VStr ("Memory " +:+ "m-1" +:+ " not found"))]))
  /\ answers (Demo.run_tool "list_memories" (Some ∅)
                (final (Demo.run_tool "clear_all_memories"
                          (Some (obj [("confirm", VBool true)])) Demo.one_memory)))
       None
       (obj [("success", VBool true);
             ("count", VNum (inject_Z 0));
             ("memories", VArr [])]).
Proof.
  destruct (clear_all_then_empty Demo.Number_toString Demo.embeddingService
              Demo.qdrantService Demo.one_memory Cases.jwt_collection
              (obj [("confirm", VBool true)]) "m-1" eq_refl eq_refl)
    as (_ & Hstats & _ & Hget & _ & Hlist & _).
  split; [exact Hstats |]. split; [exact Hget | exact Hlist].
Defined.

(** X17 on the state with one memory: storing a second one leaves "m-1"
    readable as before. *)
Lemma store_keeps_others_witness :
  outcome (Demo.run_tool "get_memory" (Some (obj [("id", VStr "m-1")]))
             (final (Demo.run_tool "store_memory" (Some Demo.jwt_args)
                       Demo.one_memory)))
  = outcome (Demo.run_tool "get_memory" (Some (obj [("id", VStr "m-1")]))
               Demo.one_memory).
Proof.
  refine (proj2 (store_memory_keeps_other_records Demo.Number_toString
                   Demo.embeddingService Demo.qdrantService Demo.jwt_args
                   "Our API uses JWT" Demo.one_memory _ "m-1" _ _ _ _)).
  - reflexivity.
  - reflexivity.
  - reflexivity.
  - discriminate.
Defined.

(** X8 on a request without content whose metadata is the string of an
    accented e and an a: the one upsert carries the two letters under the
    keys 0 and 1, the timestamp of the clock, and content undefined. *)
Lemma payload_shape_witness :
  Forall (well_formed_upsert "semantic_memory" VUndefined (VStr "éa"))
         (requests (trace (Demo.run_tool "store_memory"
                             (Some Cases.string_metadata_args) Cases.lenient)))
  /\ List.filter is_mutation
       (requests (trace (Demo.run_tool "store_memory"
                           (Some Cases.string_metadata_args) Cases.lenient)))
     = [Upsert "semantic_memory" true
          [{| ps_id := Demo.first_id;
              ps_vector := VArr [VNum (inject_Z 0)];
              ps_payload :=
                obj [("content", VUndefined);
                     ("timestamp", VStr "2024-05-01T12:00:00.000Z");
                     ("0", VStr "é");
                     ("1", VStr "a")] |}]].
Proof.
  split.
  - exact (proj1 (store_memory_payload_shape Reference.respond
                    Demo.Number_toString Demo.embeddingService
                    Demo.qdrantService Cases.string_metadata_args
                    Cases.lenient)).
  - vm_compute. reflexivity.
Defined.
